(** * Bobby's training-history generator (ios/Scripts/generate_bobby_history.py)

    A shallow embedding of the script's tables and functions, and the
    properties of the generator proved over it.

    Conventions of the embedding:
    - a Python [int] is a [Z]; a Python [float] is a binary64 value of
      [PrimFloat.float], so the arithmetic of the intensity and weight
      computations is the interpreter's, rounding included;
    - a Python [str] is a [string]; a [dict] keyed by strings is a
      [gmap string _]; a [list] is a [list];
    - a [datetime.date] is its proleptic Gregorian ordinal;
    - a computation that can raise (a failed lookup, a division by zero, a
      malformed date string) lives in the [option] monad: [None] is the
      raised exception. *)

From Stdlib Require Import ZArith String Ascii List Floats Lia.
From stdpp Require Import base option list gmap strings pretty fin_maps.

#[local] Set Warnings "-inexact-float".
#[local] Open Scope string_scope.
#[local] Open Scope Z_scope.

(** ** Python numbers *)

Module PyNum.

(** [float(n)] for a Python int: the binary64 value nearest to [n]. *)
Definition float_of_int (n : Z) : float :=
  SF2Prim (binary_normalize prec emax n 0 false).

(** [a / b] on two ints (true division): ZeroDivisionError when [b = 0],
    otherwise the quotient as a float.  The operands of the script are small
    week counts, exactly representable. *)
Definition truediv (a b : Z) : option float :=
  if b =? 0 then None else Some (float_of_int a / float_of_int b)%float.

(** The exact value of a finite float's magnitude times ten, rounded to the
    nearest integer, ties to even: the decimal digits that [round(x, 1)]
    keeps. *)
Definition tenths (m : positive) (e : Z) : Z :=
  let num := 10 * Z.pos m * 2 ^ Z.max e 0 in
  let den := 2 ^ Z.max (- e) 0 in
  let q := num / den in
  let r := num mod den in
  if 2 * r <? den then q
  else if den <? 2 * r then q + 1
  else if Z.even q then q else q + 1.

(** The float nearest to [n / 10] for [n > 0]: sixty-four further bits of
    the quotient and a sticky bit, rounded once by [binary_normalize]. *)
Definition nearest_tenth (n : Z) : spec_float :=
  let q := (n * 2 ^ 64) / 10 in
  let sticky := if (n * 2 ^ 64) mod 10 =? 0 then 0 else 1 in
  binary_normalize prec emax (2 * q + sticky) (-65) false.

(** [round(x, 1)] on a float: the exact value of [x] rounded half-even to
    one decimal, then the float nearest to that decimal (what CPython's
    [float.__round__] computes through its shortest-string routines).
    Zeros, infinities and NaN round to themselves. *)
Definition round1 (x : float) : float :=
  match Prim2SF x with
  | S754_finite s m e =>
      let n := tenths m e in
      if n =? 0 then SF2Prim (S754_zero s)
      else
        let r := SF2Prim (nearest_tenth n) in
        if s then (- r)%float else r
  | _ => x
  end.

(** [x == y] on floats. *)
Definition feq (x y : float) : Prop := PrimFloat.eqb x y = true.

End PyNum.

Export PyNum.

(** ** Python strings *)

Module PyStr.

(** [s.startswith(p)]. *)
Definition startswith (p s : string) : bool := String.prefix p s.

Definition lower_ascii (c : ascii) : ascii :=
  let n := nat_of_ascii c in
  if (65 <=? n)%nat && (n <=? 90)%nat then ascii_of_nat (n + 32) else c.

(** [s.lower()] (on the ASCII letters the tables use). *)
Fixpoint lower (s : string) : string :=
  match s with
  | EmptyString => EmptyString
  | String c s' => String (lower_ascii c) (lower s')
  end.

(** [s.replace(a, b)] for one-character [a] and [b]. *)
Fixpoint replace (a b : ascii) (s : string) : string :=
  match s with
  | EmptyString => EmptyString
  | String c s' => String (if Ascii.eqb c a then b else c) (replace a b s')
  end.

(** [str(n)] for an int. *)
Definition str (n : Z) : string := pretty n.

Fixpoint zeros (k : nat) : string :=
  match k with O => "" | S k' => String "0" (zeros k') end.

(** The [%0wd] conversion of a non-negative int. *)
Definition zfill (w : nat) (n : Z) : string :=
  let s := str n in zeros (w - String.length s) +:+ s.

Fixpoint split_on_go (c : ascii) (acc : string) (s : string) : list string :=
  match s with
  | EmptyString => [String.rev acc]
  | String x s' =>
      if Ascii.eqb x c then String.rev acc :: split_on_go c "" s'
      else split_on_go c (String x acc) s'
  end.

(** [s.split(c)]. *)
Definition split_on (c : ascii) (s : string) : list string := split_on_go c "" s.

Definition digit_of (c : ascii) : option Z :=
  let n := nat_of_ascii c in
  if (48 <=? n)%nat && (n <=? 57)%nat then Some (Z.of_nat n - 48) else None.

Fixpoint digits_go (acc : Z) (s : string) : option Z :=
  match s with
  | EmptyString => Some acc
  | String c s' => d ← digit_of c; digits_go (10 * acc + d) s'
  end.

(** A non-empty run of decimal digits read as an int. *)
Definition digits (s : string) : option Z :=
  match s with EmptyString => None | _ => digits_go 0 s end.

End PyStr.

Export PyStr.

(** ** [datetime.date] *)

Module PyDate.

(** A date is its proleptic Gregorian ordinal (day 1 is 0001-01-01), the
    number [date.toordinal()] returns. *)
Record date := fromordinal { toordinal : Z }.

#[export] Instance date_eq_dec : EqDecision date.
Proof. solve_decision. Defined.

Definition is_leap (year : Z) : bool :=
  (year mod 4 =? 0) && (negb (year mod 100 =? 0) || (year mod 400 =? 0)).

Definition DAYS_IN_MONTH : list Z :=
  [-1; 31; 28; 31; 30; 31; 30; 31; 31; 30; 31; 30; 31].

Definition DAYS_BEFORE_MONTH : list Z :=
  [-1; 0; 31; 59; 90; 120; 151; 181; 212; 243; 273; 304; 334].

Definition days_before_year (year : Z) : Z :=
  let y := year - 1 in y * 365 + y / 4 - y / 100 + y / 400.

Definition days_in_month (year month : Z) : Z :=
  if (month =? 2) && is_leap year then 29
  else nth (Z.to_nat month) DAYS_IN_MONTH 0.

Definition days_before_month (year month : Z) : Z :=
  nth (Z.to_nat month) DAYS_BEFORE_MONTH 0
  + (if (2 <? month) && is_leap year then 1 else 0).

Definition ymd2ord (year month day : Z) : Z :=
  days_before_year year + days_before_month year month + day.

(** [date(year, month, day)]: ValueError outside the calendar. *)
Definition mkdate (year month day : Z) : option date :=
  if (1 <=? year) && (year <=? 9999) && (1 <=? month) && (month <=? 12)
     && (1 <=? day) && (day <=? days_in_month year month)
  then Some (fromordinal (ymd2ord year month day))
  else None.

Definition DI400Y : Z := 146097.
Definition DI100Y : Z := 36524.
Definition DI4Y : Z := 1461.

(** The inverse of [ymd2ord], as the datetime module computes it. *)
Definition ord2ymd (n0 : Z) : Z * Z * Z :=
  let n := n0 - 1 in
  let n400 := n / DI400Y in
  let n := n mod DI400Y in
  let year := n400 * 400 + 1 in
  let n100 := n / DI100Y in
  let n := n mod DI100Y in
  let n4 := n / DI4Y in
  let n := n mod DI4Y in
  let n1 := n / 365 in
  let n := n mod 365 in
  let year := year + n100 * 100 + n4 * 4 + n1 in
  if (n1 =? 4) || (n100 =? 4) then (year - 1, 12, 31)
  else
    let leapyear := (n1 =? 3) && (negb (n4 =? 24) || (n100 =? 3)) in
    let month := Z.shiftr (n + 50) 5 in
    let preceding :=
      nth (Z.to_nat month) DAYS_BEFORE_MONTH 0
      + (if (2 <? month) && leapyear then 1 else 0) in
    if n <? preceding then
      let month := month - 1 in
      let preceding :=
        preceding
        - (nth (Z.to_nat month) DAYS_IN_MONTH 0
           + (if (month =? 2) && leapyear then 1 else 0)) in
      (year, month, n - preceding + 1)
    else (year, month, n - preceding + 1).

(** [d.weekday()]: Monday is 0, Sunday is 6. *)
Definition weekday (d : date) : Z := (toordinal d + 6) mod 7.

(** [d + timedelta(days=n)]. *)
Definition add_days (d : date) (n : Z) : date := fromordinal (toordinal d + n).

Definition date_le (a b : date) : bool := toordinal a <=? toordinal b.
Definition date_lt (a b : date) : bool := toordinal a <? toordinal b.
Definition date_min (a b : date) : date := if date_le a b then a else b.

(** [d.isoformat()] and [str(d)]: YYYY-MM-DD. *)
Definition isoformat (d : date) : string :=
  let '(y, m, dd) := ord2ymd (toordinal d) in
  zfill 4 y +:+ "-" +:+ zfill 2 m +:+ "-" +:+ zfill 2 dd.

(** [d.strftime("%Y%m%d")]. *)
Definition strftime_Ymd (d : date) : string :=
  let '(y, m, dd) := ord2ymd (toordinal d) in
  zfill 4 y +:+ zfill 2 m +:+ zfill 2 dd.

(** [datetime.strptime(s, "%Y-%m-%d").date()]: a four-digit year, a month
    and a day of one or two digits, separated by dashes; ValueError
    otherwise. *)
Definition strptime (s : string) : option date :=
  match split_on "-" s with
  | [ys; ms; ds] =>
      if (String.length ys =? 4)%nat
         && (String.length ms <=? 2)%nat && (String.length ds <=? 2)%nat
      then y ← digits ys; m ← digits ms; d ← digits ds; mkdate y m d
      else None
  | _ => None
  end.

End PyDate.

Export PyDate.

(** ** The interpreter's [hash] and [random] module

    The script draws every pseudo-random value right after reseeding the
    process-wide generator with [hash] of a key string, so the model threads
    the generator state only inside one such draw.  What the script relies on
    from the interpreter is gathered in one record: the string hash of the
    running process (CPython salts it per process unless PYTHONHASHSEED is
    fixed), and the generator's operations with the range of [randint]. *)

Record py_runtime := {
  rng : Type;
  (** [hash(s)] of a str, in this process *)
  str_hash : string → Z;
  (** [random.seed(n)] with an int *)
  random_seed : Z → rng;
  (** [random.random()] *)
  random_random : rng → float * rng;
  (** [random.randint(a, b)]: ValueError on an empty range *)
  random_randint : Z → Z → rng → option (Z * rng);
  random_randint_range : ∀ a b g, a ≤ b →
    ∃ r g', random_randint a b g = Some (r, g') ∧ a ≤ r ≤ b;
}.

Section Random.
Context (R : py_runtime).

(** [itertools.accumulate] over ints. *)
Fixpoint accumulate_from (acc : Z) (l : list Z) : list Z :=
  match l with
  | [] => []
  | x :: l' => (acc + x) :: accumulate_from (acc + x) l'
  end.

Definition accumulate (l : list Z) : list Z := accumulate_from 0 l.

(** [bisect.bisect_right(a, x, lo, hi)]: the binary search of the library,
    with the loop bounded by the width of the window. *)
Fixpoint bisect_go (fuel : nat) (a : list Z) (x : float) (lo hi : nat) : option nat :=
  if (lo <? hi)%nat then
    match fuel with
    | O => None
    | S fuel' =>
        let mid := ((lo + hi) / 2)%nat in
        a_mid ← a !! mid;
        if PrimFloat.ltb x (float_of_int a_mid)
        then bisect_go fuel' a x lo mid
        else bisect_go fuel' a x (mid + 1)%nat hi
    end
  else Some lo.

Definition bisect (a : list Z) (x : float) (lo hi : nat) : option nat :=
  bisect_go (hi - lo) a x lo hi.

(** [random.choices(population, weights=weights)[0]]. *)
Definition choices {A} (population : list A) (weights : list Z) (g : rng R)
  : option (A * rng R) :=
  let n := length population in
  let cum_weights := accumulate weights in
  if negb (length cum_weights =? n)%nat then None
  else
    last_w ← last cum_weights;
    let total := (float_of_int last_w + 0)%float in
    if PrimFloat.leb total 0 then None
    else
      let '(u, g') := random_random R g in
      i ← bisect cum_weights (u * total)%float 0 (n - 1);
      x ← population !! i;
      Some (x, g').

End Random.

(** ** The script's tables *)

Record quarter := {
  q_name : string;
  q_start : string;
  q_end : string;
  q_bodyweight : Z;
}.

Definition QUARTERS : list quarter := [
  {| q_name := "Q4 2024"; q_start := "2024-10-01"; q_end := "2024-12-31"; q_bodyweight := 144 |};
  {| q_name := "Q1 2025"; q_start := "2025-01-01"; q_end := "2025-03-31"; q_bodyweight := 148 |};
  {| q_name := "Q2 2025"; q_start := "2025-04-01"; q_end := "2025-06-30"; q_bodyweight := 152 |};
  {| q_name := "Q3 2025"; q_start := "2025-07-01"; q_end := "2025-09-30"; q_bodyweight := 149 |};
  {| q_name := "Q4 2025"; q_start := "2025-10-01"; q_end := "2025-12-31"; q_bodyweight := 150 |}
].

(** The items of the dict literal, in source order. *)
Definition ONE_RM_PROGRESSION_items : list (string * list Z) := [
  ("barbell_back_squat", [170; 180; 215; 220; 195]);
  ("conventional_deadlift", [130; 155; 200; 240; 260]);
  ("barbell_bench_press", [135; 165; 185; 200; 195]);
  ("overhead_press", [60; 80; 100; 105; 100]);
  ("pull_up", [144; 168; 192; 214; 215]);
  ("pendlay_row", [75; 105; 135; 150; 125]);
  ("dumbbell_bench_press", [50; 60; 70; 75; 70]);
  ("barbell_row", [95; 115; 140; 155; 130]);
  ("lat_pulldown", [100; 120; 140; 150; 145]);
  ("dumbbell_lateral_raise", [15; 20; 25; 27; 25]);
  ("tricep_extension", [40; 50; 60; 65; 60]);
  ("barbell_curl", [50; 60; 75; 80; 75])
].

Definition ONE_RM_PROGRESSION : gmap string (list Z) :=
  list_to_map ONE_RM_PROGRESSION_items.

Definition FULL_BODY_EXERCISES : list (list string) := [
  ["barbell_back_squat"; "conventional_deadlift"];
  ["barbell_bench_press"; "overhead_press"];
  ["pull_up"; "barbell_row"; "lat_pulldown"];
  ["dumbbell_lateral_raise"; "tricep_extension"];
  ["barbell_curl"; "pendlay_row"]
].

Record protocol := {
  pr_reps : list Z;
  pr_intensity : float;
  pr_rest : Z;
}.

Definition PROTOCOLS : gmap string protocol := list_to_map [
  ("strength_3x5_moderate", {| pr_reps := [5; 5; 5]; pr_intensity := 0.75; pr_rest := 180 |});
  ("strength_5x5_straight", {| pr_reps := [5; 5; 5; 5; 5]; pr_intensity := 0.70; pr_rest := 180 |});
  ("strength_3x8_moderate", {| pr_reps := [8; 8; 8]; pr_intensity := 0.65; pr_rest := 90 |});
  ("strength_3x10_moderate", {| pr_reps := [10; 10; 10]; pr_intensity := 0.60; pr_rest := 90 |});
  ("strength_3x12_light", {| pr_reps := [12; 12; 12]; pr_intensity := 0.55; pr_rest := 60 |})
].

Record phase := {
  ph_name : string;
  ph_weeks : Z * Z;
  ph_intensity_range : float * float;
  ph_protocol : string;
  ph_focus : string;
  ph_rationale : string;
}.

Definition Accumulation : phase := {|
  ph_name := "Accumulation";
  ph_weeks := (1, 4);
  ph_intensity_range := (0.60, 0.70)%float;
  ph_protocol := "strength_3x10_moderate";
  ph_focus := "foundation";
  ph_rationale := "Build work capacity with moderate intensity, higher volume" |}.

Definition Intensification : phase := {|
  ph_name := "Intensification";
  ph_weeks := (5, 8);
  ph_intensity_range := (0.70, 0.80)%float;
  ph_protocol := "strength_5x5_straight";
  ph_focus := "development";
  ph_rationale := "Increase intensity, reduce volume for strength adaptation" |}.

Definition Realization : phase := {|
  ph_name := "Realization";
  ph_weeks := (9, 12);
  ph_intensity_range := (0.80, 0.90)%float;
  ph_protocol := "strength_3x5_moderate";
  ph_focus := "peak";
  ph_rationale := "Peak strength with high intensity, low volume" |}.

Definition PHASES : list phase := [Accumulation; Intensification; Realization].

(** ** One-rep-max lookup *)

(** The [for i, q in enumerate(QUARTERS)] loop of [get_1rm_for_date], and the
    [return values[-1]] after it. *)
Fixpoint get_1rm_loop (i : nat) (qs : list quarter) (values : list Z)
    (workout_date : date) : option Z :=
  match qs with
  | [] => last values
  | q :: qs' =>
      start ← strptime (q_start q);
      end_ ← strptime (q_end q);
      if date_le start workout_date && date_le workout_date end_
      then (if (i <? length values)%nat then values !! i else last values)
      else get_1rm_loop (S i) qs' values workout_date
  end.

Definition get_1rm_for_date (exercise_id : string) (workout_date : date) : option Z :=
  match ONE_RM_PROGRESSION !! exercise_id with
  | None => Some 100
  | Some values => get_1rm_loop 0 QUARTERS values workout_date
  end.

(** ** Phase resolution and intensity *)

Definition in_weeks (week_num : Z) (p : phase) : bool :=
  let '(week_start, week_end) := ph_weeks p in
  (week_start <=? week_num) && (week_num <=? week_end).

(** The [for idx, phase in enumerate(PHASES)] loop of [get_phase_for_week]. *)
Fixpoint get_phase_loop (idx : Z) (phases : list phase) (week_num : Z)
    : option (Z * phase) :=
  match phases with
  | [] => None
  | p :: phases' =>
      if in_weeks week_num p then Some (idx, p)
      else get_phase_loop (idx + 1) phases' week_num
  end.

Definition get_phase_for_week (week_num : Z) : option (Z * phase) :=
  match get_phase_loop 0 PHASES week_num with
  | Some r => Some r
  | None => p ← PHASES !! 2%nat; Some (2, p)
  end.

Definition get_intensity_for_week (week_num : Z) (p : phase) : option float :=
  let '(week_start, week_end) := ph_weeks p in
  let '(intensity_start, intensity_end) := ph_intensity_range p in
  let phase_weeks := week_end - week_start + 1 in
  let week_in_phase := week_num - week_start in
  progress ← (if 1 <? phase_weeks
              then truediv week_in_phase (Z.max 1 (phase_weeks - 1))
              else Some (float_of_int 0));
  Some (intensity_start + (intensity_end - intensity_start) * progress)%float.

(** ** Outcome sampling and skip gates *)

Inductive status := completed | skipped | scheduled | active.

#[export] Instance status_eq_dec : EqDecision status.
Proof. solve_decision. Defined.

Definition status_str (s : status) : string :=
  match s with
  | completed => "completed" | skipped => "skipped"
  | scheduled => "scheduled" | active => "active"
  end.

Inductive outcome := hit | exceeded | struggled | weight_drop | skipped_set.

Inductive workout_type := strength | cardio.

#[export] Instance workout_type_eq_dec : EqDecision workout_type.
Proof. solve_decision. Defined.

Definition workout_type_str (t : workout_type) : string :=
  match t with strength => "strength" | cardio => "cardio" end.

(** What [generate_actual_performance] returns: the actual weight and reps
    (Python's None when the set was skipped) and the completion status. *)
Definition performance : Type := option float * option Z * status.

Section Sampler.
Context (R : py_runtime).

(** The outcome drawn by [random.choices] right after the reseeding. *)
Definition draw_outcome (g : rng R) : option (outcome * rng R) :=
  choices R [hit; exceeded; struggled; weight_drop; skipped_set]
            [60; 15; 15; 5; 5] g.

(** The branches of [generate_actual_performance] on the drawn outcome. *)
Definition perform (o : outcome) (target_weight : float) (target_reps : Z)
    (g : rng R) : option performance :=
  match o with
  | hit => Some (Some target_weight, Some target_reps, completed)
  | exceeded =>
      '(extra_reps, _) ← random_randint R 1 3 g;
      Some (Some target_weight, Some (target_reps + extra_reps), completed)
  | struggled =>
      let max_fewer := Z.max 1 (Z.min 2 (target_reps - 1)) in
      fewer_reps ← (if 0 <? max_fewer
                    then fst <$> random_randint R 1 max_fewer g
                    else Some 1);
      Some (Some target_weight, Some (Z.max 1 (target_reps - fewer_reps)), completed)
  | weight_drop =>
      Some (Some (round1 (target_weight * 0.9)%float), Some target_reps, completed)
  | skipped_set => Some (None, None, skipped)
  end.

(** The seed of one draw of the sampler. *)
Definition performance_seed (workout_date : date) (exercise_num : Z) : Z :=
  str_hash R (isoformat workout_date +:+ "_" +:+ str exercise_num).

Definition generate_actual_performance (target_weight : float) (target_reps : Z)
    (workout_date : date) (exercise_num : Z) : option performance :=
  let seed_val := performance_seed workout_date exercise_num in
  let g := random_seed R seed_val in
  '(o, g') ← draw_outcome g;
  perform o target_weight target_reps g'.

Definition should_skip_workout (workout_date : date) : bool :=
  let g := random_seed R (str_hash R (isoformat workout_date)) in
  PrimFloat.ltb (fst (random_random R g)) 0.10.

Definition should_skip_exercise (workout_date : date) (exercise_num : Z) : bool :=
  let g := random_seed R
             (str_hash R (isoformat workout_date +:+ "_ex_" +:+ str exercise_num)) in
  PrimFloat.ltb (fst (random_random R g)) 0.05.

End Sampler.

(** ** Exercise selection *)

(** The [for i, group in enumerate(FULL_BODY_EXERCISES)] loop. *)
Fixpoint select_loop (day_num : Z) (i : Z) (groups : list (list string))
    : option (list string) :=
  match groups with
  | [] => Some []
  | group :: groups' =>
      let len := Z.of_nat (length group) in
      choice ← (if len =? 0 then None
                else group !! Z.to_nat ((day_num + i) mod len));
      rest ← select_loop day_num (i + 1) groups';
      Some (choice :: rest)
  end.

Definition select_exercises_for_workout (workout_date : date) (t : workout_type)
    : option (list string) :=
  match t with
  | cardio => Some ["treadmill_run"]
  | strength => select_loop (toordinal workout_date) 0 FULL_BODY_EXERCISES
  end.

(** ** Generated records *)

Record workout := {
  w_id : string;
  w_programId : string;
  w_name : string;
  w_scheduledDate : string;
  w_type : workout_type;
  w_splitDay : string;
  w_status : status;
  w_completedDate : option string;
  w_exerciseIds : list string;
  w_protocolVariantIds : gmap string string;
}.

Record instance := {
  i_id : string;
  i_exerciseId : string;
  i_workoutId : string;
  i_protocolVariantId : string;
  i_setIds : list string;
  i_status : status;
  i_orderIndex : Z;
}.

Record exercise_set := {
  s_id : string;
  s_exerciseInstanceId : string;
  s_setNumber : Z;
  s_targetWeight : option float;
  s_targetReps : Z;
  s_actualWeight : option float;
  s_actualReps : option Z;
  s_completion : status;
  s_recordedDate : option string;
}.

Record stats := {
  workouts_completed : Z;
  workouts_skipped : Z;
  exercises_completed : Z;
  exercises_skipped : Z;
  sets_completed : Z;
  sets_skipped : Z;
}.

(** The counters of [total_stats], bumped by the status just decided. *)
Definition stats0 : stats := {|
  workouts_completed := 0; workouts_skipped := 0;
  exercises_completed := 0; exercises_skipped := 0;
  sets_completed := 0; sets_skipped := 0 |}.

Definition bump_workouts (s : status) (t : stats) : stats :=
  match s with
  | skipped => {| workouts_completed := workouts_completed t;
                  workouts_skipped := workouts_skipped t + 1;
                  exercises_completed := exercises_completed t;
                  exercises_skipped := exercises_skipped t;
                  sets_completed := sets_completed t;
                  sets_skipped := sets_skipped t |}
  | completed => {| workouts_completed := workouts_completed t + 1;
                    workouts_skipped := workouts_skipped t;
                    exercises_completed := exercises_completed t;
                    exercises_skipped := exercises_skipped t;
                    sets_completed := sets_completed t;
                    sets_skipped := sets_skipped t |}
  | _ => t
  end.

Definition bump_exercises (s : status) (t : stats) : stats :=
  match s with
  | skipped => {| workouts_completed := workouts_completed t;
                  workouts_skipped := workouts_skipped t;
                  exercises_completed := exercises_completed t;
                  exercises_skipped := exercises_skipped t + 1;
                  sets_completed := sets_completed t;
                  sets_skipped := sets_skipped t |}
  | completed => {| workouts_completed := workouts_completed t;
                    workouts_skipped := workouts_skipped t;
                    exercises_completed := exercises_completed t + 1;
                    exercises_skipped := exercises_skipped t;
                    sets_completed := sets_completed t;
                    sets_skipped := sets_skipped t |}
  | _ => t
  end.

Definition bump_sets (s : status) (t : stats) : stats :=
  match s with
  | skipped => {| workouts_completed := workouts_completed t;
                  workouts_skipped := workouts_skipped t;
                  exercises_completed := exercises_completed t;
                  exercises_skipped := exercises_skipped t;
                  sets_completed := sets_completed t;
                  sets_skipped := sets_skipped t + 1 |}
  | completed => {| workouts_completed := workouts_completed t;
                    workouts_skipped := workouts_skipped t;
                    exercises_completed := exercises_completed t;
                    exercises_skipped := exercises_skipped t;
                    sets_completed := sets_completed t + 1;
                    sets_skipped := sets_skipped t |}
  | _ => t
  end.

(** The accumulators of [generate_workouts_with_data]. *)
Record gen_state := {
  workouts : list workout;
  instances : gmap string instance;
  sets : gmap string exercise_set;
  total_stats : stats;
}.

Definition gen_state0 : gen_state :=
  {| workouts := []; instances := ∅; sets := ∅; total_stats := stats0 |}.

(** ** The workout generator *)

(** [q["name"].lower().replace(" ", "_")]. *)
Definition quarter_id_of (q : quarter) : string := replace " " "_" (lower (q_name q)).

Section Generator.
Context (R : py_runtime) (today : date).

Section Day.
(** The variables of one iteration of the day loop that the exercise and
    set loops read. *)
Context (current_date : date) (is_past : bool) (week_num : Z) (phase_ : phase)
        (workout_id : string) (wtype : workout_type) (protocol_id : string).

Section Exercise.
Context (ex_idx : Z) (instance_id : string) (instance_status : status)
        (reps : list Z) (target_weight : float).

(** The body of [for set_num in range(len(protocol["reps"]))]: the
    actual performance of one set and the record stored under its id. *)
Definition set_body (set_num : Z) (set_id : string)
    (sets_ : gmap string exercise_set) (stats_ : stats)
    : option (gmap string exercise_set * stats) :=
  target_reps ← reps !! Z.to_nat set_num;
  '(actual_weight, actual_reps, set_status, stats_) ←
    (if is_past && bool_decide (instance_status = completed) then
       '(aw, ar, ss) ← generate_actual_performance R target_weight target_reps
                         current_date (ex_idx * 10 + set_num);
       Some (aw, ar, ss,
             if bool_decide (ss = skipped) then bump_sets skipped stats_
             else bump_sets completed stats_)
     else if is_past && bool_decide (instance_status = skipped) then
       Some (None, None, skipped, bump_sets skipped stats_)
     else Some (None, None, scheduled, stats_));
  Some (<[set_id := {|
           s_id := set_id;
           s_exerciseInstanceId := instance_id;
           s_setNumber := set_num + 1;
           s_targetWeight :=
             if bool_decide (wtype = strength) then Some target_weight else None;
           s_targetReps := target_reps;
           s_actualWeight := actual_weight;
           s_actualReps := actual_reps;
           s_completion := set_status;
           s_recordedDate :=
             if bool_decide (set_status = completed)
             then Some (isoformat current_date +:+ "T" +:+ str (10 + ex_idx)
                        +:+ ":" +:+ str (30 + set_num * 3) +:+ ":00Z")
             else None |}]> sets_, stats_).

(** The set loop, over the set numbers [set_num .. set_num + n - 1]. *)
Fixpoint set_loop (n : nat) (set_num : Z) (set_ids : list string)
    (sets_ : gmap string exercise_set) (stats_ : stats)
    : option (list string * gmap string exercise_set * stats) :=
  match n with
  | O => Some (set_ids, sets_, stats_)
  | S n' =>
      let set_id := instance_id +:+ "_s" +:+ str (set_num + 1) in
      '(sets_, stats_) ← set_body set_num set_id sets_ stats_;
      set_loop n' (set_num + 1) (set_ids ++ [set_id]) sets_ stats_
  end.

End Exercise.

(** The body of [for ex_idx, exercise_id in enumerate(exercise_ids)].  The
    loop's own assignment to [protocol_id] (cardio only) repeats the value
    the variable already holds on a cardio day, so the variable is not
    threaded through the iterations. *)
Definition exercise_body (ex_idx : Z) (exercise_id : string)
    (pv : gmap string string) (st : gen_state)
    : option (gmap string string * gen_state) :=
  let instance_id := workout_id +:+ "_ex" +:+ str ex_idx in
  let exercise_skipped := is_past && should_skip_exercise R current_date ex_idx in
  let instance_status :=
    if exercise_skipped then skipped
    else if is_past then completed else scheduled in
  let stats_ := bump_exercises instance_status (total_stats st) in
  '(protocol_, protocol_id, phase_intensity) ←
    match wtype with
    | cardio =>
        Some ({| pr_reps := [1]; pr_intensity := 0.5; pr_rest := 0 |},
              "cardio_30min_steady", 0.5%float)
    | strength =>
        dflt ← PROTOCOLS !! "strength_3x5_moderate";
        phase_intensity ← get_intensity_for_week week_num phase_;
        Some (default dflt (PROTOCOLS !! protocol_id), protocol_id, phase_intensity)
    end;
  one_rm ← get_1rm_for_date exercise_id current_date;
  let target_weight := round1 (float_of_int one_rm * phase_intensity) in
  '(set_ids, sets_, stats_) ←
    set_loop ex_idx instance_id instance_status (pr_reps protocol_) target_weight
             (length (pr_reps protocol_)) 0 [] (sets st) stats_;
  Some (<[str ex_idx := protocol_id]> pv,
        {| workouts := workouts st;
           instances := <[instance_id := {|
               i_id := instance_id;
               i_exerciseId := exercise_id;
               i_workoutId := workout_id;
               i_protocolVariantId := protocol_id;
               i_setIds := set_ids;
               i_status := instance_status;
               i_orderIndex := ex_idx |}]> (instances st);
           sets := sets_;
           total_stats := stats_ |}).

Fixpoint exercise_loop (ex_idx : Z) (exercise_ids : list string)
    (pv : gmap string string) (st : gen_state)
    : option (gmap string string * gen_state) :=
  match exercise_ids with
  | [] => Some (pv, st)
  | exercise_id :: rest =>
      '(pv, st) ← exercise_body ex_idx exercise_id pv st;
      exercise_loop (ex_idx + 1) rest pv st
  end.

End Day.

(** What the weekday branch of the day loop fixes for a training day. *)
Record day_plan := {
  dp_workout_id : string;
  dp_type : workout_type;
  dp_split_day : string;
  dp_name : string;
  dp_protocol_id : string;
}.

(** The [if day_of_week in [0, 2, 4] ... elif day_of_week in [1, 3] ...]
    branch; [None] is the rest-day branch. *)
Definition plan_day (day_of_week : Z) (date_str : string) (week_num : Z)
    (phase_protocol : string) : option day_plan :=
  if bool_decide (day_of_week ∈ [0; 2; 4]) then
    let variant := if day_of_week =? 0 then "A"
                   else if day_of_week =? 2 then "B" else "C" in
    Some {| dp_workout_id := "bobby_" +:+ date_str +:+ "_strength";
            dp_type := strength;
            dp_split_day := "full_body";
            dp_name := "Week " +:+ str week_num +:+ " Full Body " +:+ variant;
            dp_protocol_id := phase_protocol |}
  else if bool_decide (day_of_week ∈ [1; 3]) then
    let variant := if day_of_week =? 1 then "A" else "B" in
    Some {| dp_workout_id := "bobby_" +:+ date_str +:+ "_cardio";
            dp_type := cardio;
            dp_split_day := "not_applicable";
            dp_name := "Week " +:+ str week_num +:+ " Cardio " +:+ variant;
            dp_protocol_id := "cardio_30min_steady" |}
  else None.

(** One iteration of [while current_date <= end_date], up to the increment
    of [current_date]: the new week counter and accumulators. *)
Definition day_body (quarter_id : string) (current_date : date) (week_num : Z)
    (st : gen_state) : option (Z * gen_state) :=
  let day_of_week := weekday current_date in
  let date_str := strftime_Ymd current_date in
  let is_past := date_lt current_date today in
  '(phase_idx, phase_) ← get_phase_for_week week_num;
  let phase_name := lower (ph_name phase_) in
  let prog_id := "prog_bobby_" +:+ quarter_id +:+ "_" +:+ phase_name in
  let phase_protocol := ph_protocol phase_ in
  match plan_day day_of_week date_str week_num phase_protocol with
  | None =>
      Some (if day_of_week =? 6 then week_num + 1 else week_num, st)
  | Some dp =>
      let workout_skipped := is_past && should_skip_workout R current_date in
      let workout_status :=
        if workout_skipped then skipped
        else if is_past then completed else scheduled in
      let st := {| workouts := workouts st; instances := instances st;
                   sets := sets st;
                   total_stats := bump_workouts workout_status (total_stats st) |} in
      exercise_ids ← select_exercises_for_workout current_date (dp_type dp);
      '(pv, st) ←
        (if workout_skipped then Some (∅, st)
         else exercise_loop current_date is_past week_num phase_
                (dp_workout_id dp) (dp_type dp) (dp_protocol_id dp)
                0 exercise_ids ∅ st);
      let workout_data := {|
        w_id := dp_workout_id dp;
        w_programId := prog_id;
        w_name := dp_name dp;
        w_scheduledDate := isoformat current_date +:+ "T10:00:00Z";
        w_type := dp_type dp;
        w_splitDay := dp_split_day dp;
        w_status := workout_status;
        w_completedDate :=
          if bool_decide (workout_status = completed)
          then Some (isoformat current_date +:+ "T11:30:00Z") else None;
        w_exerciseIds := if workout_skipped then [] else exercise_ids;
        w_protocolVariantIds := pv |} in
      Some (if day_of_week =? 6 then week_num + 1 else week_num,
            {| workouts := workouts st ++ [workout_data];
               instances := instances st; sets := sets st;
               total_stats := total_stats st |})
  end.

(** [while current_date.weekday() != 0: current_date += timedelta(days=1)]. *)
Fixpoint find_first_monday (fuel : nat) (current_date : date) : option date :=
  if weekday current_date =? 0 then Some current_date
  else match fuel with
       | O => None
       | S fuel' => find_first_monday fuel' (add_days current_date 1)
       end.

(** [while current_date <= end_date: ...]. *)
Fixpoint day_loop (fuel : nat) (quarter_id : string) (end_date current_date : date)
    (week_num : Z) (st : gen_state) : option gen_state :=
  if date_le current_date end_date then
    match fuel with
    | O => None
    | S fuel' =>
        '(week_num, st) ← day_body quarter_id current_date week_num st;
        day_loop fuel' quarter_id end_date (add_days current_date 1) week_num st
    end
  else Some st.

(** The body of [for i, q in enumerate(QUARTERS)].  The loops are bounded by
    the number of days they can visit. *)
Definition quarter_body (q : quarter) (st : gen_state) : option gen_state :=
  let quarter_id := quarter_id_of q in
  start_date ← strptime (q_start q);
  end_date ← strptime (q_end q);
  current_date ← find_first_monday 7 start_date;
  day_loop (Z.to_nat (toordinal end_date - toordinal current_date + 1))
           quarter_id end_date current_date 1 st.

Fixpoint quarter_loop (qs : list quarter) (st : gen_state) : option gen_state :=
  match qs with
  | [] => Some st
  | q :: qs' => st ← quarter_body q st; quarter_loop qs' st
  end.

Definition generate_workouts_with_data : option gen_state :=
  quarter_loop QUARTERS gen_state0.

End Generator.

(** ** A runtime to run the model on

    A small instance of [py_runtime]: a polynomial string hash keyed by a
    per-process salt (as CPython's is, by PYTHONHASHSEED or at random), and a
    linear congruential generator.  It stands for no particular interpreter
    build; it shows that the interface is inhabited and lets the model be
    evaluated. *)

Fixpoint salted_hash (acc : Z) (s : string) : Z :=
  match s with
  | EmptyString => acc
  | String c s' => salted_hash ((acc * 1000003 + Z.of_nat (nat_of_ascii c)) mod 2 ^ 61) s'
  end.

Definition lcg_next (g : Z) : Z := (g * 6364136223846793005 + 1442695040888963407) mod 2 ^ 64.

Definition lcg_random (g : Z) : float * Z :=
  let g' := lcg_next g in
  ((float_of_int (g' / 2 ^ 11) / float_of_int (2 ^ 53))%float, g').

Definition lcg_randint (a b : Z) (g : Z) : option (Z * Z) :=
  if a <=? b then
    let g' := lcg_next g in Some (a + (g' / 2 ^ 32) mod (b - a + 1), g')
  else None.

Lemma lcg_randint_range a b g :
  a ≤ b → ∃ r g', lcg_randint a b g = Some (r, g') ∧ a ≤ r ≤ b.
Proof.
  intros Hab. unfold lcg_randint.
  destruct (Z.leb_spec a b) as [_|?]; [|lia].
  eexists _, _. split; [reflexivity|].
  pose proof (Z.mod_pos_bound (lcg_next g / 2 ^ 32) (b - a + 1)). lia.
Qed.

Definition salted_runtime (salt : Z) : py_runtime := {|
  rng := Z;
  str_hash := salted_hash salt;
  random_seed := Z.abs;
  random_random := lcg_random;
  random_randint := lcg_randint;
  random_randint_range := lcg_randint_range;
|}.

(** ** Plans, programs and targets *)

Record plan := {
  pl_id : string;
  pl_name : string;
  pl_description : string;
  pl_goal : string;
  pl_memberId : string;
  pl_trainerId : string;
  pl_startDate : string;
  pl_endDate : string;
  pl_status : status;
  pl_splitType : string;
  pl_preferredDays : list string;
  pl_compoundTimeAllocation : float;
  pl_isolationApproach : string;
  pl_emphasizedMuscleGroups : list string;
  pl_excludedMuscleGroups : list string;
  pl_targetSessionDuration : Z;
  pl_trainingLocation : string;
  pl_cardioDays : Z;
  pl_weightliftingDays : Z;
  pl_isSingleWorkout : bool;
  pl_experienceLevel : string;
}.

Definition plan_of (i : Z) (q : quarter) : plan :=
  let plan_id := "plan_bobby_" +:+ quarter_id_of q in
  {| pl_id := plan_id;
     pl_name := q_name q +:+ " Strength";
     pl_description := "Quarterly strength program " +:+ q_name q;
     pl_goal := "strength";
     pl_memberId := "bobby";
     pl_trainerId := "nick_vargas";
     pl_startDate := q_start q +:+ "T00:00:00Z";
     pl_endDate := q_end q +:+ "T23:59:59Z";
     pl_status := if i =? 4 then active else completed;
     pl_splitType := "full_body";
     pl_preferredDays := ["monday"; "tuesday"; "wednesday"; "thursday"; "friday"];
     pl_compoundTimeAllocation := 0.6;
     pl_isolationApproach := "volume_accumulation";
     pl_emphasizedMuscleGroups := [];
     pl_excludedMuscleGroups := [];
     pl_targetSessionDuration := 45;
     pl_trainingLocation := "gym";
     pl_cardioDays := 2;
     pl_weightliftingDays := 3;
     pl_isSingleWorkout := false;
     pl_experienceLevel := "intermediate" |}.

Fixpoint plans_loop (i : Z) (qs : list quarter) (plans : gmap string plan)
    : gmap string plan :=
  match qs with
  | [] => plans
  | q :: qs' => plans_loop (i + 1) qs' (<[pl_id (plan_of i q) := plan_of i q]> plans)
  end.

Definition generate_plans : gmap string plan := plans_loop 0 QUARTERS ∅.

Record program := {
  pg_id : string;
  pg_planId : string;
  pg_name : string;
  pg_focus : string;
  pg_status : status;
  pg_startDate : string;
  pg_endDate : string;
  pg_startingIntensity : float;
  pg_endingIntensity : float;
  pg_progressionType : string;
  pg_rationale : string;
}.

Definition program_of (today : date) (i : Z) (quarter_id : string)
    (quarter_start quarter_end : date) (phase_idx : Z) (p : phase) : program :=
  let '(week_start, week_end) := ph_weeks p in
  let phase_start := add_days quarter_start (7 * (week_start - 1)) in
  let phase_end :=
    date_min (add_days (add_days quarter_start (7 * week_end)) (-1)) quarter_end in
  let status0 :=
    if date_lt phase_end today then completed
    else if date_le phase_start today && date_le today phase_end then active
    else scheduled in
  let status1 :=
    if i =? 4 then
      (if phase_idx =? 2 then active
       else if phase_idx <? 2 then completed else status0)
    else status0 in
  {| pg_id := "prog_bobby_" +:+ quarter_id +:+ "_" +:+ lower (ph_name p);
     pg_planId := "plan_bobby_" +:+ quarter_id;
     pg_name := ph_name p;
     pg_focus := ph_focus p;
     pg_status := status1;
     pg_startDate := isoformat phase_start +:+ "T00:00:00Z";
     pg_endDate := isoformat phase_end +:+ "T23:59:59Z";
     pg_startingIntensity := fst (ph_intensity_range p);
     pg_endingIntensity := snd (ph_intensity_range p);
     pg_progressionType := "linear";
     pg_rationale := ph_rationale p |}.

Fixpoint programs_phase_loop (today : date) (i : Z) (quarter_id : string)
    (quarter_start quarter_end : date) (phase_idx : Z) (phases : list phase)
    (programs : gmap string program) : gmap string program :=
  match phases with
  | [] => programs
  | p :: phases' =>
      let pg := program_of today i quarter_id quarter_start quarter_end phase_idx p in
      programs_phase_loop today i quarter_id quarter_start quarter_end
        (phase_idx + 1) phases' (<[pg_id pg := pg]> programs)
  end.

Fixpoint programs_loop (today : date) (i : Z) (qs : list quarter)
    (programs : gmap string program) : option (gmap string program) :=
  match qs with
  | [] => Some programs
  | q :: qs' =>
      quarter_start ← strptime (q_start q);
      quarter_end ← strptime (q_end q);
      programs_loop today (i + 1) qs'
        (programs_phase_loop today i (quarter_id_of q) quarter_start quarter_end
           0 PHASES programs)
  end.

Definition generate_programs (today : date) : option (gmap string program) :=
  programs_loop today 0 QUARTERS ∅.

Record history_entry := {
  h_date : string;
  h_target : Z;
  h_calibrationSource : string;
}.

Record target := {
  t_id : string;
  t_memberId : string;
  t_exerciseId : string;
  t_currentTarget : float;
  t_targetHistory : list history_entry;
  t_lastUpdated : string;
  t_targetType : string;
}.

Fixpoint history_loop (i : nat) (qs : list quarter) (values : list Z)
    : list history_entry :=
  match qs with
  | [] => []
  | q :: qs' =>
      match values !! i with
      | Some v =>
          {| h_date := q_start q +:+ "T00:00:00Z"; h_target := v;
             h_calibrationSource := "quarterly_test" |}
          :: history_loop (S i) qs' values
      | None => history_loop (S i) qs' values
      end
  end.

Fixpoint targets_loop (items : list (string * list Z)) (targets : gmap string target)
    : option (gmap string target) :=
  match items with
  | [] => Some targets
  | (exercise_id, values) :: items' =>
      let target_id := "bobby-" +:+ exercise_id in
      last_value ← last values;
      targets_loop items'
        (<[target_id := {|
             t_id := target_id;
             t_memberId := "bobby";
             t_exerciseId := exercise_id;
             t_currentTarget := float_of_int last_value;
             t_targetHistory := history_loop 0 QUARTERS values;
             t_lastUpdated := "2025-10-31T00:00:00Z";
             t_targetType := "max" |}]> targets)
  end.

Definition generate_targets : option (gmap string target) :=
  targets_loop ONE_RM_PROGRESSION_items ∅.

(** ** Merging into the data files ([main])

    A record already in a file is a JSON value of some type [J]; a merged
    collection holds such values next to freshly generated records. *)

Section Merge.
Context {J : Type}.

(** [{k: v for k, v in existing.items() if not k.startswith(prefix)}] followed
    by [existing.update(generated)]. *)
Definition merge_dict {G} (prefix : string) (existing : gmap string J)
    (generated : gmap string G) : gmap string (J + G) :=
  (inr <$> generated)
  ∪ (inl <$> filter (λ kv, startswith prefix kv.1 = false) existing).

(** [w["id"]] on an existing workout: KeyError without an ["id"]. *)
Context (json_id : J → option string).

Fixpoint strip_list (prefix : string) (existing : list J) : option (list J) :=
  match existing with
  | [] => Some []
  | w :: rest =>
      id ← json_id w;
      rest' ← strip_list prefix rest;
      Some (if startswith prefix id then rest' else w :: rest')
  end.

(** [[w for w in existing if not w["id"].startswith(prefix)]] followed by
    [existing.extend(generated)]. *)
Definition merge_list {G} (prefix : string) (existing : list J) (generated : list G)
    : option (list (J + G)) :=
  kept ← strip_list prefix existing;
  Some (map inl kept ++ map inr generated)%list.

(** [for target_id, target_data in targets.items():
       existing_targets[target_id] = target_data]. *)
Definition upsert_dict {G} (existing : gmap string J) (generated : gmap string G)
    : gmap string (J + G) :=
  (inr <$> generated) ∪ (inl <$> existing).

Record data_files := {
  f_plans : gmap string J;
  f_programs : gmap string J;
  f_workouts : list J;
  f_instances : gmap string J;
  f_sets : gmap string J;
  f_targets : gmap string J;
}.

Record merged_files := {
  m_plans : gmap string (J + plan);
  m_programs : gmap string (J + program);
  m_workouts : list (J + workout);
  m_instances : gmap string (J + instance);
  m_sets : gmap string (J + exercise_set);
  m_targets : gmap string (J + target);
}.

(** [main]: every collection is generated, then each file is read, merged and
    written in turn.  [today_programs] and [today_workouts] are the two
    readings of the clock, in [generate_programs] and in
    [generate_workouts_with_data]. *)
Definition main (R : py_runtime) (today_programs today_workouts : date)
    (files : data_files) : option merged_files :=
  let plans := generate_plans in
  programs ← generate_programs today_programs;
  st ← generate_workouts_with_data R today_workouts;
  targets ← generate_targets;
  ws ← merge_list "bobby_" (f_workouts files) (workouts st);
  Some {| m_plans := merge_dict "plan_bobby" (f_plans files) plans;
          m_programs := merge_dict "prog_bobby" (f_programs files) programs;
          m_workouts := ws;
          m_instances := merge_dict "bobby_" (f_instances files) (instances st);
          m_sets := merge_dict "bobby_" (f_sets files) (sets st);
          m_targets := upsert_dict (f_targets files) targets |}.

End Merge.

(** * Vocabulary of the properties *)


(** [d] lies between the dates written [a] and [b], inclusive. *)
Definition date_between (a b : string) (d : date) : Prop :=
  ∃ da db, strptime a = Some da ∧ strptime b = Some db
           ∧ toordinal da ≤ toordinal d ≤ toordinal db.

Definition in_quarter (q : quarter) (d : date) : Prop :=
  date_between (q_start q) (q_end q) d.

(** The intensity the generator uses in week [w]: the week's phase, then the
    interpolation inside it. *)
Definition week_intensity (w : Z) : option float :=
  '(_, p) ← get_phase_for_week w; get_intensity_for_week w p.

(** A float that is a number: not an infinity, not NaN. *)
Definition finite (x : float) : Prop :=
  match Prim2SF x with
  | S754_zero _ | S754_finite _ _ _ => True
  | _ => False
  end.

(** A phase like [p] squeezed into the single week [w]. *)
Definition single_week (w : Z) (p : phase) : phase :=
  {| ph_name := ph_name p; ph_weeks := (w, w);
     ph_intensity_range := ph_intensity_range p;
     ph_protocol := ph_protocol p; ph_focus := ph_focus p;
     ph_rationale := ph_rationale p |}.


(** The shape of what the sampler returns on outcome [o], as the code
    produces it. *)
Definition performance_shape (o : outcome) (target_weight : float)
    (target_reps : Z) (perf : performance) : Prop :=
  match o with
  | hit => perf = (Some target_weight, Some target_reps, completed)
  | exceeded =>
      ∃ k, 1 ≤ k ≤ 3
           ∧ perf = (Some target_weight, Some (target_reps + k), completed)
  | struggled =>
      ∃ k, 1 ≤ k ≤ Z.max 1 (Z.min 2 (target_reps - 1))
           ∧ perf = (Some target_weight, Some (Z.max 1 (target_reps - k)), completed)
  | weight_drop =>
      perf = (Some (round1 (target_weight * 0.9)%float), Some target_reps, completed)
  | skipped_set => perf = (None, None, skipped)
  end.

(** The same with the bound of the struggled outcome as the specification
    words it: a value in 1..min(2, target - 1). *)
Definition performance_shape_spec (o : outcome) (target_weight : float)
    (target_reps : Z) (perf : performance) : Prop :=
  match o with
  | struggled =>
      ∃ k, 1 ≤ k ≤ Z.min 2 (target_reps - 1)
           ∧ perf = (Some target_weight, Some (Z.max 1 (target_reps - k)), completed)
  | _ => performance_shape o target_weight target_reps perf
  end.

(** Every stored set names a stored instance. *)
Definition sets_linked (st : gen_state) : Prop :=
  ∀ k s, sets st !! k = Some s → is_Some (instances st !! s_exerciseInstanceId s).

(** Every stored instance names one of the workout ids [ids]. *)
Definition instances_linked (ids : list string) (ins : gmap string instance) : Prop :=
  ∀ k i, ins !! k = Some i → i_workoutId i ∈ ids.

(** The ids of the workouts that were not skipped. *)
Definition live_ids (ws : list workout) : list string :=
  map w_id (filter (λ w, w_status w ≠ skipped) ws).

Definition keys_prefixed {V} (p : string) (m : gmap string V) : Prop :=
  ∀ k, is_Some (m !! k) → startswith p k = true.

(** What holds of the accumulators while the exercises of the workout [wid]
    are generated: its instances are stored before the workout itself. *)
Definition day_inv (wid : string) (ids : list string) (st : gen_state) : Prop :=
  sets_linked st
  ∧ instances_linked (wid :: ids) (instances st)
  ∧ keys_prefixed "bobby_" (instances st)
  ∧ keys_prefixed "bobby_" (sets st).

(** What holds of the accumulators between two days. *)
Definition gen_inv (st : gen_state) : Prop :=
  sets_linked st
  ∧ instances_linked (live_ids (workouts st)) (instances st)
  ∧ keys_prefixed "bobby_" (instances st)
  ∧ keys_prefixed "bobby_" (sets st)
  ∧ ∀ w, w ∈ workouts st → w_status w = skipped → w_exerciseIds w = [].

(** What places a workout record in the schedule: its date, id, type and
    name. *)
Definition workout_key : Type := string * string * workout_type * string.

Definition w_key (w : workout) : workout_key :=
  (w_scheduledDate w, w_id w, w_type w, w_name w).

Definition next_week (c : date) (week_num : Z) : Z :=
  if weekday c =? 6 then week_num + 1 else week_num.

(** The key of the record the day loop appends on day [c] in week
    [week_num], if any. *)
Definition day_keys (c : date) (week_num : Z) : list workout_key :=
  match plan_day (weekday c) (strftime_Ymd c) week_num "" with
  | Some dp => [(isoformat c +:+ "T10:00:00Z", dp_workout_id dp, dp_type dp, dp_name dp)]
  | None => []
  end.

(** The keys appended over [n] days from day [c] on. *)
Fixpoint schedule (n : nat) (c : date) (week_num : Z) : list workout_key :=
  match n with
  | O => []
  | S n' => day_keys c week_num ++ schedule n' (add_days c 1) (next_week c week_num)
  end.

(** The first Monday on or after [d]. *)
Definition first_monday (d : date) : date := add_days d ((7 - weekday d) mod 7).

(** The keys appended for a quarter: from the first Monday on or after its
    start to its end, the week counter starting at 1. *)
Definition quarter_schedule (q : quarter) : list workout_key :=
  match strptime (q_start q), strptime (q_end q) with
  | Some s, Some e =>
      schedule (Z.to_nat (toordinal e - toordinal (first_monday s) + 1))
               (first_monday s) 1
  | _, _ => []
  end.

Definition full_schedule : list workout_key := concat (map quarter_schedule QUARTERS).

(** The training type of a calendar day: Monday, Wednesday and Friday are
    strength days, Tuesday and Thursday cardio days, the weekend rests. *)
Definition training_type (d : date) : option workout_type :=
  let wd := weekday d in
  if bool_decide (wd ∈ [0; 2; 4]) then Some strength
  else if bool_decide (wd ∈ [1; 3]) then Some cardio
  else None.

(** The number of Sundays among the days [a], ..., [b - 1]. *)
Definition sundays_between (a b : date) : Z :=
  Z.of_nat (length (filter (λ k, weekday (add_days a k) = 6)
                           (seqZ 0 (toordinal b - toordinal a)))).

(** The letter of a training day within its week. *)
Definition variant_of (d : date) : string :=
  let wd := weekday d in
  if bool_decide (wd ∈ [0; 1]) then "A"
  else if bool_decide (wd ∈ [2; 3]) then "B" else "C".

(** The key of the record of the training day [d] of type [t], in a quarter
    whose walk starts on [monday]: the week in its name is one more than the
    number of Sundays walked before [d]. *)
Definition expected_key (monday d : date) (t : workout_type) : workout_key :=
  (isoformat d +:+ "T10:00:00Z",
   "bobby_" +:+ strftime_Ymd d +:+ "_" +:+ workout_type_str t,
   t,
   "Week " +:+ str (1 + sundays_between monday d)
   +:+ (match t with strength => " Full Body " | cardio => " Cardio " end)
   +:+ variant_of d).

(** The records expected for day [d] of a quarter that starts on [start]:
    one for a training day on or after the first Monday, none otherwise. *)
Definition expected_records (start d : date) : list workout_key :=
  match training_type d with
  | Some t =>
      if date_le (first_monday start) d
      then [expected_key (first_monday start) d t] else []
  | None => []
  end.

(** The generated workouts scheduled on day [d]. *)
Definition records_on (d : date) (ws : list workout) : list workout :=
  filter (λ w, w_scheduledDate w = isoformat d +:+ "T10:00:00Z") ws.

Definition keys_on (d : date) (ks : list workout_key) : list workout_key :=
  filter (λ k : workout_key, k.1.1.1 = isoformat d +:+ "T10:00:00Z") ks.

(** The comparison, day by day over every quarter, of the schedule with the
    expected records. *)
Definition schedule_check : bool :=
  let ks := full_schedule in
  forallb (λ q,
    match strptime (q_start q), strptime (q_end q) with
    | Some s, Some e =>
        forallb (λ n, bool_decide (keys_on (fromordinal n) ks
                                   = expected_records s (fromordinal n)))
                (seqZ (toordinal s) (toordinal e - toordinal s + 1))
    | _, _ => false
    end) QUARTERS.

Section MergeVocabulary.
Context {J : Type}.

(** The records of an existing collection whose key does not carry the
    prefix. *)
Definition foreign (prefix : string) (existing : gmap string J) : gmap string J :=
  filter (λ kv, startswith prefix kv.1 = false) existing.

(** [out] is [existing] merged with [generated] by prefix: it holds as many
    records as the foreign ones and the generated ones together; under a key
    with the prefix it holds the generated record of that key, if any, and
    never an existing one; under any other key it holds what [existing]
    held. *)
Definition prefix_merged {G} (prefix : string) (existing : gmap string J)
    (generated : gmap string G) (out : gmap string (J + G)) : Prop :=
  size out = (size (foreign prefix existing) + size generated)%nat
  ∧ (∀ k, startswith prefix k = true → out !! k = inr <$> generated !! k)
  ∧ (∀ k, startswith prefix k = false → out !! k = inl <$> existing !! k).

Definition is_foreign (json_id : J → option string) (prefix : string) (w : J) : bool :=
  match json_id w with
  | Some id => negb (startswith prefix id)
  | None => true
  end.

(** The same for a list: the foreign records, in their order, then the
    generated ones. *)
Definition prefix_merged_list {G} (json_id : J → option string) (prefix : string)
    (existing : list J) (generated : list G) (out : list (J + G)) : Prop :=
  out = (map inl (List.filter (is_foreign json_id prefix) existing)
         ++ map inr generated)%list
  ∧ length out
    = (length (List.filter (is_foreign json_id prefix) existing)
       + length generated)%nat.

End MergeVocabulary.

(** Data files for the examples: a JSON record is stood for by a string, its
    own id.  Two plans, two workouts and one target exist; one plan and one
    workout carry a reserved prefix, and so does the target. *)
Definition example_files : data_files (J := string) := {|
  f_plans := {[ "plan_bobby_old" := "plan_bobby_old"; "plan_alice" := "plan_alice" ]};
  f_programs := ∅;
  f_workouts := ["bobby_20240101_strength"; "alice_20240101_strength"];
  f_instances := ∅;
  f_sets := ∅;
  f_targets := {[ "bobby-legacy_lift" := "bobby-legacy_lift" ]};
|}.

(** * Vocabulary of the further properties *)


(** The ids of the [n] sets of the instance [instance_id], in order. *)
Definition set_ids_of (instance_id : string) (n : nat) : list string :=
  map (λ m, instance_id +:+ "_s" +:+ str (m + 1)) (seqZ 0 (Z.of_nat n)).

(** What a stretch of the run that appends the workouts keyed [ks] does to
    the accumulators: it extends the workout list, and leaves as they were
    the instances and sets under every key that extends no workout id of
    [ks]. *)
Definition frame_of (ks : list workout_key) (st st' : gen_state) : Prop :=
  (∃ ws, workouts st' = (workouts st ++ ws)%list)
  ∧ ∀ k, Forall (λ key : workout_key, startswith key.1.1.2 k = false) ks →
      sets st' !! k = sets st !! k ∧ instances st' !! k = instances st !! k.

(** [day_body] with its calls of [select_exercises_for_workout] recorded:
    the third component lists the arguments of each call made by the
    iteration, in order. *)
Definition day_body_calls (R : py_runtime) (today : date) (quarter_id : string)
    (current_date : date) (week_num : Z) (st : gen_state)
    : option (Z * gen_state * list (date * workout_type)) :=
  let day_of_week := weekday current_date in
  let date_str := strftime_Ymd current_date in
  let is_past := date_lt current_date today in
  '(phase_idx, phase_) ← get_phase_for_week week_num;
  let phase_name := lower (ph_name phase_) in
  let prog_id := "prog_bobby_" +:+ quarter_id +:+ "_" +:+ phase_name in
  let phase_protocol := ph_protocol phase_ in
  match plan_day day_of_week date_str week_num phase_protocol with
  | None =>
      Some (if day_of_week =? 6 then week_num + 1 else week_num, st, [])
  | Some dp =>
      let workout_skipped := is_past && should_skip_workout R current_date in
      let workout_status :=
        if workout_skipped then skipped
        else if is_past then completed else scheduled in
      let st := {| workouts := workouts st; instances := instances st;
                   sets := sets st;
                   total_stats := bump_workouts workout_status (total_stats st) |} in
      let calls := [(current_date, dp_type dp)] in
      exercise_ids ← select_exercises_for_workout current_date (dp_type dp);
      '(pv, st) ←
        (if workout_skipped then Some (∅, st)
         else exercise_loop R current_date is_past week_num phase_
                (dp_workout_id dp) (dp_type dp) (dp_protocol_id dp)
                0 exercise_ids ∅ st);
      let workout_data := {|
        w_id := dp_workout_id dp;
        w_programId := prog_id;
        w_name := dp_name dp;
        w_scheduledDate := isoformat current_date +:+ "T10:00:00Z";
        w_type := dp_type dp;
        w_splitDay := dp_split_day dp;
        w_status := workout_status;
        w_completedDate :=
          if bool_decide (workout_status = completed)
          then Some (isoformat current_date +:+ "T11:30:00Z") else None;
        w_exerciseIds := if workout_skipped then [] else exercise_ids;
        w_protocolVariantIds := pv |} in
      Some (if day_of_week =? 6 then week_num + 1 else week_num,
            {| workouts := workouts st ++ [workout_data];
               instances := instances st; sets := sets st;
               total_stats := total_stats st |},
            calls)
  end.








(** The ids that the generators give the plan of a quarter and the program
    of a phase of a quarter. *)
Definition plan_id (q : quarter) : string := "plan_bobby_" +:+ quarter_id_of q.










(** * Properties *)

(** ** Phase resolution *)

Lemma week_cases w :
  1 ≤ w ≤ 12 →
  w = 1 ∨ w = 2 ∨ w = 3 ∨ w = 4 ∨ w = 5 ∨ w = 6
  ∨ w = 7 ∨ w = 8 ∨ w = 9 ∨ w = 10 ∨ w = 11 ∨ w = 12.
Proof. lia. Qed.

(** Case analysis on a week of the quarter's twelve. *)
Ltac each_week w Hw :=
  let Hc := fresh "Hc" in
  pose proof (week_cases w Hw) as Hc;
  repeat (destruct Hc as [Hc|Hc]); subst w.

Lemma in_weeks_spec w p :
  in_weeks w p = true ↔ (ph_weeks p).1 ≤ w ≤ (ph_weeks p).2.
Proof.
  unfold in_weeks. destruct (ph_weeks p) as [a b]; simpl.
  rewrite andb_true_iff, !Z.leb_le. tauto.
Qed.

Lemma PHASES_elems p :
  p ∈ PHASES → p = Accumulation ∨ p = Intensification ∨ p = Realization.
Proof.
  unfold PHASES. rewrite !elem_of_cons, elem_of_nil. tauto.
Qed.

Lemma get_phase_for_week_total w : is_Some (get_phase_for_week w).
Proof.
  unfold get_phase_for_week.
  destruct (get_phase_loop 0 PHASES w); simpl; eauto.
Qed.

Lemma get_phase_for_week_late w :
  12 < w → get_phase_for_week w = Some (2, Realization).
Proof.
  intros Hw. unfold get_phase_for_week, PHASES, get_phase_loop, in_weeks. simpl.
  repeat match goal with
         | |- context [?a <=? ?b] => destruct (Z.leb_spec a b); try lia; simpl
         end; reflexivity.
Qed.

(** C4: for every week 1..12 the resolver returns the one phase of PHASES
    whose week range contains the week; the three ranges are 1-4, 5-8 and
    9-12 and cover exactly the weeks 1..12, each once; past week 12 the
    resolver returns the last phase, Realization; and it returns a phase for
    every week number. *)
Theorem get_phase_for_week_partition :
  (∀ w, 1 ≤ w ≤ 12 →
     ∃ idx p, get_phase_for_week w = Some (idx, p)
              ∧ PHASES !! Z.to_nat idx = Some p
              ∧ in_weeks w p = true
              ∧ ∀ p', p' ∈ PHASES → in_weeks w p' = true → p' = p)
  ∧ map ph_weeks PHASES = [(1, 4); (5, 8); (9, 12)]
  ∧ (∀ w p, p ∈ PHASES → in_weeks w p = true → 1 ≤ w ≤ 12)
  ∧ (∀ w, 12 < w → get_phase_for_week w = Some (2, Realization))
  ∧ (∀ w, ∃ idx p, get_phase_for_week w = Some (idx, p) ∧ p ∈ PHASES).
Proof.
  split; [|split; [reflexivity|split; [|split]]].
  - intros w Hw.
    assert (Huniq : ∀ p, p ∈ PHASES → in_weeks w p = true →
                         ∀ p', p' ∈ PHASES → in_weeks w p' = true → p' = p).
    { intros p Hp Hin p' Hp' Hin'.
      apply in_weeks_spec in Hin, Hin'.
      destruct (PHASES_elems _ Hp) as [->|[->| ->]],
               (PHASES_elems _ Hp') as [->|[->| ->]];
        simpl in Hin, Hin'; first [reflexivity | lia]. }
    each_week w Hw;
      (eexists _, _; split; [reflexivity|]; split; [reflexivity|];
       split; [reflexivity|]; apply Huniq; [|reflexivity];
       unfold PHASES; rewrite !elem_of_cons; tauto).
  - intros w p Hp Hin. apply in_weeks_spec in Hin.
    destruct (PHASES_elems _ Hp) as [->|[->| ->]]; simpl in Hin; lia.
  - apply get_phase_for_week_late.
  - intros w. unfold get_phase_for_week, PHASES, get_phase_loop.
    repeat match goal with
           | |- context [in_weeks w ?p] => destruct (in_weeks w p)
           end; simpl; eexists _, _; (split; [reflexivity|]);
      rewrite !elem_of_cons; tauto.
Qed.

(** The resolver at week 7 and at week 13, through the theorem. *)
Lemma get_phase_for_week_partition_witness :
  (∃ idx p, get_phase_for_week 7 = Some (idx, p)
            ∧ PHASES !! Z.to_nat idx = Some p
            ∧ in_weeks 7 p = true
            ∧ ∀ p', p' ∈ PHASES → in_weeks 7 p' = true → p' = p)
  ∧ get_phase_for_week 13 = Some (2, Realization).
Proof.
  split.
  - apply (proj1 get_phase_for_week_partition 7). lia.
  - apply (proj1 (proj2 (proj2 (proj2 get_phase_for_week_partition))) 13). lia.
Defined.

(** ** Intensity interpolation *)

Lemma SFcompare_refl_finite s m e :
  SFcompare (S754_finite s m e) (S754_finite s m e) = Some Eq.
Proof.
  simpl. rewrite Z.compare_refl, Pos.compare_cont_refl.
  destruct s; reflexivity.
Qed.

(** [s + d * 0.0 == s] for a number [s] and a number [d]. *)
Lemma add_mul_zero_feq (s d : float) :
  finite s → finite d → feq (s + d * float_of_int 0)%float s.
Proof.
  unfold finite, feq. intros Hs Hd.
  rewrite FloatAxioms.eqb_spec, FloatAxioms.add_spec, FloatAxioms.mul_spec.
  replace (Prim2SF (float_of_int 0)) with (S754_zero false) by reflexivity.
  destruct (Prim2SF d) as [sd| | |sd md ed]; try contradiction;
    destruct (Prim2SF s) as [ss| | |ss ms es]; try contradiction;
    unfold SF64add, SF64mul, SFmul, SFadd, SFeqb;
    try (rewrite SFcompare_refl_finite; reflexivity);
    destruct ss, sd; reflexivity.
Qed.

(** C5: at the first week of each phase of PHASES the interpolated intensity
    is the phase's start intensity, and at its last week it is the end
    intensity, exactly; and for a phase of a single week (week_start =
    week_end), whatever its week and the week asked for, the function returns
    a value equal to the start intensity, the division being skipped: no
    ZeroDivisionError is raised. *)
Theorem get_intensity_for_week_endpoints :
  (∀ p, p ∈ PHASES →
     get_intensity_for_week (ph_weeks p).1 p = Some (ph_intensity_range p).1
     ∧ get_intensity_for_week (ph_weeks p).2 p = Some (ph_intensity_range p).2)
  ∧ (∀ p w week_num,
       (ph_weeks p).1 = w → (ph_weeks p).2 = w →
       finite (ph_intensity_range p).1 →
       finite ((ph_intensity_range p).2 - (ph_intensity_range p).1)%float →
       ∃ r, get_intensity_for_week week_num p = Some r
            ∧ feq r (ph_intensity_range p).1).
Proof.
  split.
  - intros p Hp.
    destruct (PHASES_elems _ Hp) as [->|[->| ->]]; split; vm_compute; reflexivity.
  - intros p w week_num Hs He Hfs Hfd.
    unfold get_intensity_for_week.
    destruct (ph_weeks p) as [ws we]; simpl in Hs, He; subst ws we.
    destruct (ph_intensity_range p) as [s e]; simpl in *.
    replace (w - w + 1) with 1 by lia. simpl.
    eexists; split; [reflexivity|].
    apply add_mul_zero_feq; assumption.
Qed.

(** The theorem at Intensification, and at Realization squeezed into week 9. *)
Lemma get_intensity_for_week_endpoints_witness :
  (get_intensity_for_week 5 Intensification = Some 0.70%float
   ∧ get_intensity_for_week 8 Intensification = Some 0.80%float)
  ∧ ∃ r, get_intensity_for_week 9 (single_week 9 Realization) = Some r
         ∧ feq r 0.80%float.
Proof.
  split.
  - apply (proj1 get_intensity_for_week_endpoints Intensification).
    unfold PHASES. rewrite !elem_of_cons. tauto.
  - apply (proj2 get_intensity_for_week_endpoints (single_week 9 Realization) 9 9);
      [reflexivity | reflexivity | vm_compute; exact I | vm_compute; exact I].
Defined.

Lemma week_intensity_values :
  map week_intensity [1; 2; 3; 4; 5; 6; 7; 8; 9; 10; 11; 12]
  = map Some [0.6; 0.6333333333333333; 0.6666666666666666; 0.7;
              0.7; 0.7333333333333333; 0.7666666666666667; 0.8;
              0.8; 0.8333333333333334; 0.8666666666666667; 0.9]%float.
Proof. vm_compute. reflexivity. Qed.

(** C9: over the weeks 1..12 the intensity of the week's phase at that week
    never decreases from a week to a later week, and it is the same on both
    sides of each phase boundary: 0.70 at weeks 4 and 5, 0.80 at weeks 8 and
    9. *)
Theorem week_intensity_monotone_continuous :
  (∀ w1 w2, 1 ≤ w1 → w1 ≤ w2 → w2 ≤ 12 →
     ∃ x1 x2, week_intensity w1 = Some x1 ∧ week_intensity w2 = Some x2
              ∧ PrimFloat.leb x1 x2 = true)
  ∧ week_intensity 4 = Some 0.70%float ∧ week_intensity 5 = Some 0.70%float
  ∧ week_intensity 8 = Some 0.80%float ∧ week_intensity 9 = Some 0.80%float.
Proof.
  split; [|repeat split; vm_compute; reflexivity].
  intros w1 w2 H1 H12 H2.
  assert (Hw1 : 1 ≤ w1 ≤ 12) by lia. assert (Hw2 : 1 ≤ w2 ≤ 12) by lia.
  each_week w1 Hw1; each_week w2 Hw2; try lia;
    (eexists _, _; split; [vm_compute; reflexivity|];
     split; [vm_compute; reflexivity|]; vm_compute; reflexivity).
Qed.

(** Weeks 4 and 9 through the theorem. *)
Lemma week_intensity_monotone_continuous_witness :
  ∃ x1 x2, week_intensity 4 = Some x1 ∧ week_intensity 9 = Some x2
           ∧ PrimFloat.leb x1 x2 = true.
Proof.
  apply (proj1 week_intensity_monotone_continuous 4 9); lia.
Defined.

(** ** One-rep-max lookup *)

Lemma QUARTERS_dates :
  map (λ q, (strptime (q_start q), strptime (q_end q))) QUARTERS
  = [(Some (fromordinal 739160), Some (fromordinal 739251));
     (Some (fromordinal 739252), Some (fromordinal 739341));
     (Some (fromordinal 739342), Some (fromordinal 739432));
     (Some (fromordinal 739433), Some (fromordinal 739524));
     (Some (fromordinal 739525), Some (fromordinal 739616))].
Proof. vm_compute. reflexivity. Qed.

Lemma date_le_spec a b : date_le a b = true ↔ toordinal a ≤ toordinal b.
Proof. unfold date_le. apply Z.leb_le. Qed.

Lemma date_lt_spec a b : date_lt a b = true ↔ toordinal a < toordinal b.
Proof. unfold date_lt. apply Z.ltb_lt. Qed.

(** The quarter loop on the script's table, by the ordinal of the date. *)
Lemma get_1rm_loop_QUARTERS values d :
  get_1rm_loop 0 QUARTERS values d =
  let n := toordinal d in
  if (739160 <=? n) && (n <=? 739251) then
    (if (0 <? length values)%nat then values !! 0%nat else last values)
  else if (739252 <=? n) && (n <=? 739341) then
    (if (1 <? length values)%nat then values !! 1%nat else last values)
  else if (739342 <=? n) && (n <=? 739432) then
    (if (2 <? length values)%nat then values !! 2%nat else last values)
  else if (739433 <=? n) && (n <=? 739524) then
    (if (3 <? length values)%nat then values !! 3%nat else last values)
  else if (739525 <=? n) && (n <=? 739616) then
    (if (4 <? length values)%nat then values !! 4%nat else last values)
  else last values.
Proof. reflexivity. Qed.

Lemma in_quarter_ordinals i q d :
  QUARTERS !! i = Some q → in_quarter q d →
  ∃ a b, nth_error [(739160, 739251); (739252, 739341); (739342, 739432);
                    (739433, 739524); (739525, 739616)] i = Some (a, b)
         ∧ a ≤ toordinal d ≤ b.
Proof.
  intros Hq (da & db & Ha & Hb & Hd).
  destruct i as [|[|[|[|[|i]]]]]; simpl in Hq; try discriminate;
    injection Hq as <-; vm_compute in Ha, Hb;
    injection Ha as <-; injection Hb as <-; simpl in Hd;
    eexists _, _; (split; [reflexivity|lia]).
Qed.

Lemma ONE_RM_PROGRESSION_lengths e values :
  ONE_RM_PROGRESSION !! e = Some values → length values = 5%nat.
Proof.
  unfold ONE_RM_PROGRESSION. intros H.
  apply elem_of_list_to_map_2 in H. unfold ONE_RM_PROGRESSION_items in H.
  rewrite !elem_of_cons, elem_of_nil in H.
  repeat (destruct H as [H|H]; [injection H as -> ->; reflexivity|]).
  contradiction.
Qed.

Ltac case_leb :=
  repeat match goal with
         | |- context [?a <=? ?b] => destruct (Z.leb_spec a b); simpl; try lia
         end.


(** ** The outcome sampler *)

(** The draw of the outcome is the band of [random() * 100] among the
    cumulative weights 60, 75, 90, 95, 100, found by the library's binary
    search. *)
Lemma draw_outcome_bands R g :
  draw_outcome R g =
  let x := ((random_random R g).1 * 100)%float in
  Some (if PrimFloat.ltb x 90
        then (if PrimFloat.ltb x 75
              then (if PrimFloat.ltb x 60 then hit else exceeded)
              else struggled)
        else (if PrimFloat.ltb x 95 then weight_drop else skipped_set),
        (random_random R g).2).
Proof.
  unfold draw_outcome, choices.
  destruct (random_random R g) as [u g'].
  cbv -[PrimFloat.ltb PrimFloat.mul].
  repeat match goal with
         | |- context [PrimFloat.ltb ?a ?b] => destruct (PrimFloat.ltb a b)
         end; reflexivity.
Qed.

Lemma draw_outcome_total R g : ∃ o g', draw_outcome R g = Some (o, g').
Proof. rewrite draw_outcome_bands. simpl. eauto. Qed.

Lemma perform_shape R o tw tr g :
  ∃ perf, perform R o tw tr g = Some perf ∧ performance_shape o tw tr perf.
Proof.
  destruct o; simpl.
  - eauto.
  - destruct (random_randint_range R 1 3 g ltac:(lia)) as (k & g' & -> & Hk).
    simpl. eauto.
  - assert (Hm : 1 ≤ Z.max 1 (Z.min 2 (tr - 1))) by lia.
    destruct (Z.ltb_spec 0 (Z.max 1 (Z.min 2 (tr - 1)))) as [_|?]; [|lia].
    destruct (random_randint_range R 1 _ g Hm) as (k & g' & -> & Hk).
    simpl. eauto.
  - eauto.
  - eauto.
Qed.

(** C6, as amended: for every target weight, target reps, date and ordinal
    the sampler returns a result, of the shape of the outcome it drew: hit
    returns the targets; exceeded returns the target reps plus a value in
    1..3 at the target weight; struggled returns the target reps minus a
    value in 1..max(1, min(2, target - 1)), floored at 1, at the target
    weight; weight_drop returns round(target * 0.9, 1) with the reps
    unchanged; skipped returns None for weight and reps; the status is
    completed for every outcome but skipped.  From two target reps on, the
    value subtracted by struggled lies in 1..min(2, target - 1). *)
Theorem generate_actual_performance_shape R tw tr d n :
  ∃ o g perf,
    draw_outcome R (random_seed R (performance_seed R d n)) = Some (o, g)
    ∧ generate_actual_performance R tw tr d n = Some perf
    ∧ performance_shape o tw tr perf
    ∧ (perf.2 = completed ↔ o ≠ skipped_set)
    ∧ (perf.2 = skipped ↔ o = skipped_set)
    ∧ (2 ≤ tr → performance_shape_spec o tw tr perf).
Proof.
  unfold generate_actual_performance.
  destruct (draw_outcome_total R (random_seed R (performance_seed R d n)))
    as (o & g & Hdraw).
  destruct (perform_shape R o tw tr g) as (perf & Hperf & Hshape).
  exists o, g, perf. rewrite Hdraw. simpl.
  split; [reflexivity|]. split; [exact Hperf|]. split; [exact Hshape|].
  split; [|split].
  - destruct o; simpl in Hshape;
      try destruct Hshape as (k & Hk & ->); subst; simpl;
      split; congruence.
  - destruct o; simpl in Hshape;
      try destruct Hshape as (k & Hk & ->); subst; simpl;
      split; congruence.
  - intros Htr. destruct o; simpl in *; try exact Hshape.
    destruct Hshape as (k & Hk & ->). exists k. split; [lia|reflexivity].
Qed.

(** The sampler on ten target reps, through the theorem. *)
Lemma generate_actual_performance_shape_witness :
  ∃ o perf,
    generate_actual_performance (salted_runtime 2) 102 10 (fromordinal 739166) 0
    = Some perf
    ∧ performance_shape_spec o 102 10 perf.
Proof.
  destruct (generate_actual_performance_shape
              (salted_runtime 2) 102 10 (fromordinal 739166) 0)
    as (o & g & perf & _ & Hgen & _ & _ & _ & Hspec).
  exists o, perf. split; [exact Hgen|]. apply Hspec. lia.
Defined.

(** C6, as stated, fails at one target rep, the reps of every cardio set:
    when struggled is drawn (here on the cardio day 2024-10-08, ordinal 0,
    in a process whose draw falls in the struggled band) the sampler returns
    the one rep, and the range 1..min(2, 1 - 1) holds no value to subtract. *)
Lemma struggled_single_rep_counterexample :
  ∃ d g,
    strptime "2024-10-08" = Some d
    ∧ draw_outcome (salted_runtime 2)
        (random_seed (salted_runtime 2) (performance_seed (salted_runtime 2) d 0))
      = Some (struggled, g)
    ∧ generate_actual_performance (salted_runtime 2) 50 1 d 0
      = Some (Some 50%float, Some 1, completed)
    ∧ ¬ performance_shape_spec struggled 50 1 (Some 50%float, Some 1, completed).
Proof.
  eexists _, _. split; [vm_compute; reflexivity|].
  split; [vm_compute; reflexivity|].
  split; [vm_compute; reflexivity|].
  intros (k & Hk & _). simpl in Hk. lia.
Qed.

(** C1: the seed of a draw is [hash] of a string, and the hash of a string
    depends on the process: two runs whose interpreters salt their string
    hashes differently draw different outcomes for the same target, date and
    ordinal. *)
Theorem generate_actual_performance_depends_on_process :
  ∃ d,
    strptime "2024-10-08" = Some d
    ∧ generate_actual_performance (salted_runtime 1) 50 1 d 0
      = Some (Some 50%float, Some 1, completed)
    ∧ generate_actual_performance (salted_runtime 0) 50 1 d 0
      = Some (None, None, skipped).
Proof.
  eexists. split; [vm_compute; reflexivity|].
  split; vm_compute; reflexivity.
Qed.

(** ** The generator never raises *)

Lemma get_intensity_for_week_total w p : is_Some (get_intensity_for_week w p).
Proof.
  unfold get_intensity_for_week, truediv.
  destruct (ph_weeks p) as [ws we], (ph_intensity_range p) as [s e].
  destruct (1 <? we - ws + 1); simpl; [|eauto].
  destruct (Z.eqb_spec (Z.max 1 (we - ws + 1 - 1)) 0); [lia|]. simpl. eauto.
Qed.

Lemma select_loop_total groups : ∀ day_num i,
  Forall (λ g, g ≠ []) groups → is_Some (select_loop day_num i groups).
Proof.
  induction groups as [|g groups IH]; intros day_num i Hne; simpl; [eauto|].
  inversion Hne as [|? ? Hg Hrest]; subst.
  assert (Hlen : 0 < Z.of_nat (length g)) by (destruct g; [congruence|simpl; lia]).
  destruct (Z.eqb_spec (Z.of_nat (length g)) 0); [lia|].
  pose proof (Z.mod_pos_bound (day_num + i) _ Hlen) as Hmod.
  destruct (lookup_lt_is_Some_2 g (Z.to_nat ((day_num + i) `mod` Z.of_nat (length g)))
              ltac:(lia)) as [choice ->].
  simpl. destruct (IH day_num (i + 1) Hrest) as [rest ->]. simpl. eauto.
Qed.

Lemma select_exercises_total d t : is_Some (select_exercises_for_workout d t).
Proof.
  destruct t; [|simpl; eauto].
  unfold select_exercises_for_workout.
  apply select_loop_total. unfold FULL_BODY_EXERCISES.
  repeat constructor; discriminate.
Qed.

Lemma get_1rm_for_date_total e d : is_Some (get_1rm_for_date e d).
Proof.
  unfold get_1rm_for_date.
  destruct (ONE_RM_PROGRESSION !! e) as [values|] eqn:He; [|eauto].
  pose proof (ONE_RM_PROGRESSION_lengths _ _ He) as Hlen.
  rewrite get_1rm_loop_QUARTERS. simpl. rewrite Hlen.
  destruct values as [|v0 [|v1 [|v2 [|v3 [|v4 [|]]]]]]; try discriminate.
  simpl.
  repeat match goal with
         | |- context [if ?b then _ else _] => destruct b; simpl
         end; eauto.
Qed.

Lemma generate_actual_performance_total R tw tr d n :
  ∃ aw ar ss, generate_actual_performance R tw tr d n = Some (aw, ar, ss).
Proof.
  unfold generate_actual_performance.
  destruct (draw_outcome_total R (random_seed R (performance_seed R d n)))
    as (o & g & ->).
  simpl.
  destruct (perform_shape R o tw tr g) as ([[aw ar] ss] & -> & _).
  eauto.
Qed.

(** ** String prefixes *)

Lemma startswith_app p s t :
  startswith p s = true → startswith p (s +:+ t) = true.
Proof.
  unfold startswith. revert s.
  induction p as [|c p IH]; intros s H;
    [destruct s; simpl; [destruct t|]; reflexivity|].
  destruct s as [|c' s]; simpl in *; [discriminate|].
  destruct (ascii_dec c c'); [auto|discriminate].
Qed.

Lemma startswith_self p s : startswith p (p +:+ s) = true.
Proof.
  unfold startswith. induction p as [|c p IH]; simpl.
  - destruct s; reflexivity.
  - destruct (ascii_dec c c); [exact IH|congruence].
Qed.

(** ** The set loop *)

Section SetLoop.
Context (R : py_runtime) (current_date : date) (is_past : bool)
        (wtype : workout_type) (ex_idx : Z) (instance_id : string)
        (instance_status : status) (reps : list Z) (target_weight : float).

Lemma set_body_spec set_num set_id sets_ stats_ :
  (Z.to_nat set_num < length reps)%nat →
  ∃ s stats', set_body R current_date is_past wtype ex_idx instance_id
                instance_status reps target_weight set_num set_id sets_ stats_
              = Some (<[set_id := s]> sets_, stats')
              ∧ s_exerciseInstanceId s = instance_id
              ∧ s_targetWeight s
                = if bool_decide (wtype = strength) then Some target_weight else None.
Proof.
  intros Hlt. unfold set_body.
  destruct (lookup_lt_is_Some_2 reps _ Hlt) as [target_reps ->]. simpl.
  destruct (is_past && bool_decide (instance_status = completed)).
  - destruct (generate_actual_performance_total R target_weight target_reps
                current_date (ex_idx * 10 + set_num)) as (aw & ar & ss & ->).
    simpl. eexists _, _. repeat split; reflexivity.
  - destruct (is_past && bool_decide (instance_status = skipped)); simpl;
      eexists _, _; repeat split; reflexivity.
Qed.

(** The set loop returns; every set it leaves in the collection was there
    before or belongs to the instance, with the exercise's target weight on a
    strength day, under a key that extends the instance id. *)
Lemma set_loop_spec n : ∀ set_num set_ids sets_ stats_,
  0 ≤ set_num → (Z.to_nat set_num + n = length reps)%nat →
  ∃ set_ids' sets' stats',
    set_loop R current_date is_past wtype ex_idx instance_id instance_status
      reps target_weight n set_num set_ids sets_ stats_
    = Some (set_ids', sets', stats')
    ∧ ∀ k s, sets' !! k = Some s →
        sets_ !! k = Some s
        ∨ (s_exerciseInstanceId s = instance_id
           ∧ s_targetWeight s
             = (if bool_decide (wtype = strength) then Some target_weight else None)
           ∧ ∃ sfx, k = instance_id +:+ sfx).
Proof.
  induction n as [|n IH]; intros set_num set_ids sets_ stats_ Hnn Hlen; simpl.
  - eexists _, _, _. split; [reflexivity|]. auto.
  - destruct (set_body_spec set_num (instance_id +:+ "_s" +:+ str (set_num + 1))
                sets_ stats_ ltac:(lia)) as (s & stats' & -> & Hs & Htw).
    simpl.
    destruct (IH (set_num + 1)
                (set_ids ++ [instance_id +:+ "_s" +:+ str (set_num + 1)])%list
                (<[instance_id +:+ "_s" +:+ str (set_num + 1) := s]> sets_) stats'
                ltac:(lia) ltac:(lia))
      as (ids' & sets' & stats'' & -> & Hsets).
    eexists _, _, _. split; [reflexivity|].
    intros k s' Hk. destruct (Hsets k s' Hk) as [Hin|Hnew]; [|auto].
    apply lookup_insert_Some in Hin as [[<- <-]|[_ Hold]]; [|auto].
    right. split; [exact Hs|]. split; [exact Htw|]. eauto.
Qed.

End SetLoop.

(** ** The exercise loop *)

Section ExerciseLoop.
Context (R : py_runtime) (current_date : date) (is_past : bool) (week_num : Z)
        (phase_ : phase) (workout_id : string) (wtype : workout_type)
        (protocol_id : string) (ids : list string).
Hypothesis workout_id_prefixed : startswith "bobby_" workout_id = true.

Lemma exercise_body_spec ex_idx exercise_id pv st :
  ∃ pv' st',
    exercise_body R current_date is_past week_num phase_ workout_id wtype
      protocol_id ex_idx exercise_id pv st = Some (pv', st')
    ∧ workouts st' = workouts st
    ∧ (day_inv workout_id ids st → day_inv workout_id ids st').
Proof.
  unfold exercise_body.
  set (instance_id := workout_id +:+ "_ex" +:+ str ex_idx).
  set (instance_status := if is_past && should_skip_exercise R current_date ex_idx
                          then skipped else if is_past then completed else scheduled).
  assert (Hproto : ∃ pr pid x,
    match wtype with
    | cardio =>
        Some ({| pr_reps := [1]; pr_intensity := 0.5; pr_rest := 0 |},
              "cardio_30min_steady", 0.5%float)
    | strength =>
        dflt ← PROTOCOLS !! "strength_3x5_moderate";
        phase_intensity ← get_intensity_for_week week_num phase_;
        Some (default dflt (PROTOCOLS !! protocol_id), protocol_id, phase_intensity)
    end = Some (pr, pid, x)).
  { destruct wtype; [|eauto].
    replace (PROTOCOLS !! "strength_3x5_moderate")
      with (Some {| pr_reps := [5; 5; 5]; pr_intensity := 0.75; pr_rest := 180 |})
      by (vm_compute; reflexivity).
    destruct (get_intensity_for_week_total week_num phase_) as [x ->].
    simpl. eauto. }
  destruct Hproto as (pr & pid & x & ->). simpl.
  destruct (get_1rm_for_date_total exercise_id current_date) as [one_rm ->]. simpl.
  destruct (set_loop_spec R current_date is_past wtype ex_idx instance_id
              instance_status (pr_reps pr) (round1 (float_of_int one_rm * x))
              (length (pr_reps pr)) 0 [] (sets st)
              (bump_exercises instance_status (total_stats st))
              ltac:(lia) ltac:(lia))
    as (set_ids & sets' & stats' & -> & Hsets).
  simpl. eexists _, _. split; [reflexivity|]. split; [reflexivity|].
  intros (Hsl & Hil & Hki & Hks).
  assert (Hid : startswith "bobby_" instance_id = true)
    by (apply startswith_app; exact workout_id_prefixed).
  repeat split; simpl.
  - intros k s Hk. destruct (Hsets k s Hk) as [Hold|(Hnew & _ & _)].
    + apply lookup_insert_is_Some'. right. exact (Hsl k s Hold).
    + apply lookup_insert_is_Some'. left. symmetry. exact Hnew.
  - intros k i Hk.
    apply lookup_insert_Some in Hk as [[_ <-]|[_ Hold]]; simpl.
    + apply elem_of_cons. auto.
    + exact (Hil k i Hold).
  - intros k [i Hk].
    apply lookup_insert_Some in Hk as [[<- _]|[_ Hold]]; [exact Hid|].
    apply Hki. eauto.
  - intros k [s Hk]. destruct (Hsets k s Hk) as [Hold|(_ & _ & sfx & ->)].
    + apply Hks. eauto.
    + apply startswith_app. exact Hid.
Qed.

Lemma exercise_loop_spec exercise_ids : ∀ ex_idx pv st,
  ∃ pv' st',
    exercise_loop R current_date is_past week_num phase_ workout_id wtype
      protocol_id ex_idx exercise_ids pv st = Some (pv', st')
    ∧ workouts st' = workouts st
    ∧ (day_inv workout_id ids st → day_inv workout_id ids st').
Proof.
  induction exercise_ids as [|e rest IH]; intros ex_idx pv st; simpl.
  - eexists _, _. split; [reflexivity|]. auto.
  - destruct (exercise_body_spec ex_idx e pv st) as (pv1 & st1 & -> & Hw1 & Hinv1).
    simpl.
    destruct (IH (ex_idx + 1) pv1 st1) as (pv2 & st2 & -> & Hw2 & Hinv2).
    eexists _, _. split; [reflexivity|]. split; [congruence|auto].
Qed.

End ExerciseLoop.

(** The sets that the exercise body stores on a strength day carry the target
    weight round(one_rm * phase_intensity, 1). *)
Lemma exercise_body_target R c is_past week_num phase_ wid pid ex_idx e pv st
    pv' st' one_rm x :
  exercise_body R c is_past week_num phase_ wid strength pid ex_idx e pv st
  = Some (pv', st') →
  get_1rm_for_date e c = Some one_rm →
  get_intensity_for_week week_num phase_ = Some x →
  ∀ k s, sets st' !! k = Some s →
    sets st !! k = Some s
    ∨ s_targetWeight s = Some (round1 (float_of_int one_rm * x)).
Proof.
  unfold exercise_body. intros Hbody Hrm Hx.
  replace (PROTOCOLS !! "strength_3x5_moderate")
    with (Some {| pr_reps := [5; 5; 5]; pr_intensity := 0.75; pr_rest := 180 |})
    in Hbody by (vm_compute; reflexivity).
  rewrite Hx, Hrm in Hbody. simpl in Hbody.
  match type of Hbody with
  | context [set_loop ?R ?d ?p ?t ?i ?iid ?ist ?reps ?tw ?n ?sn ?ids ?ss ?stt] =>
      destruct (set_loop_spec R d p t i iid ist reps tw n sn ids ss stt
                  ltac:(lia) ltac:(lia)) as (set_ids & sets' & stats' & Hloop & Hsets)
  end.
  rewrite Hloop in Hbody. simpl in Hbody. injection Hbody as _ <-. simpl.
  intros k s Hk. destruct (Hsets k s Hk) as [Hold|(_ & Htw & _)]; [auto|].
  right. exact Htw.
Qed.

(** ** The day loop *)

Lemma live_ids_app ws w :
  live_ids (ws ++ [w])
  = (live_ids ws ++ if decide (w_status w ≠ skipped) then [w_id w] else [])%list.
Proof.
  unfold live_ids. rewrite filter_app, map_app. f_equal.
  rewrite filter_cons, filter_nil. destruct (decide _); reflexivity.
Qed.

Lemma plan_day_cases dow ds week proto dp :
  plan_day dow ds week proto = Some dp →
  startswith "bobby_" (dp_workout_id dp) = true
  ∧ plan_day dow ds week "" =
      Some {| dp_workout_id := dp_workout_id dp; dp_type := dp_type dp;
              dp_split_day := dp_split_day dp; dp_name := dp_name dp;
              dp_protocol_id := if decide (dp_type dp = strength) then ""
                                else "cardio_30min_steady" |}.
Proof.
  unfold plan_day.
  destruct (bool_decide (dow ∈ [0; 2; 4])).
  - intros [= <-]. simpl dp_workout_id.
    split; [apply (startswith_self "bobby_")|reflexivity].
  - destruct (bool_decide (dow ∈ [1; 3])); [|discriminate].
    intros [= <-]. simpl dp_workout_id.
    split; [apply (startswith_self "bobby_")|reflexivity].
Qed.

Lemma plan_day_None dow ds week proto :
  plan_day dow ds week proto = None → plan_day dow ds week "" = None.
Proof.
  unfold plan_day.
  destruct (bool_decide (dow ∈ [0; 2; 4])); [discriminate|].
  destruct (bool_decide (dow ∈ [1; 3])); [discriminate|reflexivity].
Qed.

Section DayLoop.
Context (R : py_runtime) (today : date).

(** One day of the loop: it returns, advances the week counter on a Sunday
    only, appends the day's record if the day is a training day, and keeps
    the links between the collections. *)
Lemma day_body_spec quarter_id c week_num st :
  ∃ st',
    day_body R today quarter_id c week_num st = Some (next_week c week_num, st')
    ∧ map w_key (workouts st') = (map w_key (workouts st) ++ day_keys c week_num)%list
    ∧ (gen_inv st → gen_inv st').
Proof.
  unfold day_body, day_keys.
  destruct (get_phase_for_week_total week_num) as [[phase_idx phase_] ->]. simpl.
  destruct (plan_day (weekday c) (strftime_Ymd c) week_num (ph_protocol phase_))
    as [dp|] eqn:Hplan.
  2:{ rewrite (plan_day_None _ _ _ _ Hplan).
      eexists. split; [reflexivity|]. rewrite app_nil_r. auto. }
  destruct (plan_day_cases _ _ _ _ _ Hplan) as [Hpre ->]. simpl.
  destruct (select_exercises_total c (dp_type dp)) as [exercise_ids ->]. simpl.
  set (is_past := date_lt c today).
  destruct (is_past && should_skip_workout R c) eqn:Hskip; simpl.
  - eexists. split; [reflexivity|]. simpl.
    split; [rewrite map_app; reflexivity|].
    intros (Hsl & Hil & Hki & Hks & Hsk).
    repeat split; simpl; try assumption.
    + rewrite live_ids_app. simpl.
      destruct (decide (skipped ≠ skipped)); [congruence|].
      rewrite app_nil_r. exact Hil.
    + intros w Hw Hst. apply elem_of_app in Hw as [Hw|Hw]; [auto|].
      apply list_elem_of_singleton in Hw as ->. reflexivity.
  - set (st0 := {| workouts := workouts st; instances := instances st;
                   sets := sets st;
                   total_stats := bump_workouts (if is_past then completed else scheduled)
                                    (total_stats st) |}).
    destruct (exercise_loop_spec R c is_past week_num phase_ (dp_workout_id dp)
                (dp_type dp) (dp_protocol_id dp) (live_ids (workouts st)) Hpre
                exercise_ids 0 ∅ st0) as (pv & st1 & -> & Hws & Hinv).
    simpl. eexists. split; [reflexivity|]. simpl.
    split; [rewrite Hws, map_app; reflexivity|].
    intros (Hsl & Hil & Hki & Hks & Hsk).
    destruct Hinv as (Hsl1 & Hil1 & Hki1 & Hks1).
    { repeat split; simpl; try assumption.
      intros k i Hk. apply elem_of_cons. right. exact (Hil k i Hk). }
    repeat split; simpl; try assumption.
    + rewrite Hws, live_ids_app. simpl.
      intros k i Hk. specialize (Hil1 k i Hk).
      apply elem_of_cons in Hil1 as [->|Hin]; apply elem_of_app.
      * right. destruct is_past; simpl; apply list_elem_of_singleton; reflexivity.
      * left. exact Hin.
    + rewrite Hws. intros w Hw Hst.
      apply elem_of_app in Hw as [Hw|Hw]; [auto|].
      apply list_elem_of_singleton in Hw as ->. simpl in Hst.
      destruct is_past; discriminate.
Qed.

(** On a past training day that the skip gate skips, the body stores no
    instance and no set, and the record it appends is skipped, without
    exercises. *)
Lemma day_body_skipped quarter_id c week_num st week' st' :
  day_body R today quarter_id c week_num st = Some (week', st') →
  day_keys c week_num ≠ [] →
  date_lt c today && should_skip_workout R c = true →
  instances st' = instances st
  ∧ sets st' = sets st
  ∧ ∃ w, workouts st' = (workouts st ++ [w])%list
         ∧ w_status w = skipped ∧ w_exerciseIds w = [].
Proof.
  unfold day_body, day_keys.
  destruct (get_phase_for_week_total week_num) as [[phase_idx phase_] ->]. simpl.
  destruct (plan_day (weekday c) (strftime_Ymd c) week_num (ph_protocol phase_))
    as [dp|] eqn:Hplan.
  2:{ rewrite (plan_day_None _ _ _ _ Hplan). congruence. }
  destruct (select_exercises_total c (dp_type dp)) as [exercise_ids ->]. simpl.
  intros Hbody _ Hskip. rewrite Hskip in Hbody. simpl in Hbody.
  injection Hbody as _ <-. simpl.
  split; [reflexivity|]. split; [reflexivity|].
  eexists. split; [reflexivity|]. split; reflexivity.
Qed.

(** The day loop over the [n] days that remain up to [end_date]. *)
Lemma day_loop_spec quarter_id end_date n : ∀ c week_num st,
  n = Z.to_nat (toordinal end_date - toordinal c + 1) →
  ∃ st',
    day_loop R today n quarter_id end_date c week_num st = Some st'
    ∧ map w_key (workouts st') = (map w_key (workouts st) ++ schedule n c week_num)%list
    ∧ (gen_inv st → gen_inv st').
Proof.
  induction n as [|n IH]; intros c week_num st Hn; simpl.
  - destruct (Z.leb_spec (toordinal c) (toordinal end_date)) as [Hle|Hgt];
      unfold date_le.
    + lia.
    + destruct (Z.leb_spec (toordinal c) (toordinal end_date)); [lia|].
      eexists. split; [reflexivity|]. rewrite app_nil_r. auto.
  - unfold date_le.
    destruct (Z.leb_spec (toordinal c) (toordinal end_date)) as [Hle|Hgt]; [|lia].
    destruct (day_body_spec quarter_id c week_num st) as (st1 & -> & Hk1 & Hinv1).
    simpl.
    destruct (IH (add_days c 1) (next_week c week_num) st1 ltac:(simpl; lia))
      as (st2 & -> & Hk2 & Hinv2).
    eexists. split; [reflexivity|].
    split; [rewrite Hk2, Hk1, <- app_assoc; reflexivity|auto].
Qed.

End DayLoop.

(** ** The quarter loop *)

Lemma find_first_monday_spec d : find_first_monday 7 d = Some (first_monday d).
Proof.
  unfold first_monday.
  assert (Hw : ∀ k, weekday (add_days d k) = (weekday d + k) mod 7).
  { intros k. unfold weekday, add_days. simpl.
    rewrite Zplus_mod_idemp_l. f_equal. lia. }
  assert (Hadd : ∀ a b, add_days (add_days d a) b = add_days d (a + b)).
  { intros a b. unfold add_days. simpl. f_equal. lia. }
  assert (Hd0 : add_days d 0 = d).
  { unfold add_days. destruct d. simpl. f_equal. lia. }
  pose proof (Z.mod_pos_bound (toordinal d + 6) 7 ltac:(lia)) as Hr.
  fold (weekday d) in Hr.
  assert (Hcases : weekday d = 0 ∨ weekday d = 1 ∨ weekday d = 2 ∨ weekday d = 3
                   ∨ weekday d = 4 ∨ weekday d = 5 ∨ weekday d = 6) by lia.
  unfold find_first_monday.
  rewrite !Hadd, !Hw.
  destruct Hcases as [E|[E|[E|[E|[E|[E|E]]]]]]; rewrite E;
    [change ((7 - 0) `mod` 7) with 0; rewrite Hd0; reflexivity|..];
    vm_compute Z.eqb; cbv iota; do 2 f_equal.
Qed.

Section QuarterLoop.
Context (R : py_runtime) (today : date).

Lemma quarter_body_spec q st :
  is_Some (strptime (q_start q)) → is_Some (strptime (q_end q)) →
  ∃ st',
    quarter_body R today q st = Some st'
    ∧ map w_key (workouts st') = (map w_key (workouts st) ++ quarter_schedule q)%list
    ∧ (gen_inv st → gen_inv st').
Proof.
  intros [s Hs] [e He]. unfold quarter_body, quarter_schedule.
  rewrite Hs, He. cbn -[find_first_monday day_loop Z.to_nat].
  rewrite find_first_monday_spec. cbn -[day_loop Z.to_nat].
  apply day_loop_spec. reflexivity.
Qed.

Lemma quarter_loop_spec qs : ∀ st,
  Forall (λ q, is_Some (strptime (q_start q)) ∧ is_Some (strptime (q_end q))) qs →
  ∃ st',
    quarter_loop R today qs st = Some st'
    ∧ map w_key (workouts st')
      = (map w_key (workouts st) ++ concat (map quarter_schedule qs))%list
    ∧ (gen_inv st → gen_inv st').
Proof.
  induction qs as [|q qs IH]; intros st Hqs; simpl.
  - eexists. split; [reflexivity|]. rewrite app_nil_r. auto.
  - inversion Hqs as [|? ? [Hs He] Hrest]; subst.
    destruct (quarter_body_spec q st Hs He) as (st1 & -> & Hk1 & Hinv1). simpl.
    destruct (IH st1 Hrest) as (st2 & -> & Hk2 & Hinv2).
    eexists. split; [reflexivity|].
    split; [rewrite Hk2, Hk1, <- app_assoc; reflexivity|auto].
Qed.

Lemma QUARTERS_well_formed :
  Forall (λ q, is_Some (strptime (q_start q)) ∧ is_Some (strptime (q_end q))) QUARTERS.
Proof.
  unfold QUARTERS. repeat constructor; vm_compute; eauto.
Qed.

Lemma gen_inv0 : gen_inv gen_state0.
Proof.
  unfold gen_inv, sets_linked, instances_linked, keys_prefixed, gen_state0.
  cbn [workouts instances sets].
  repeat split; intros;
    repeat match goal with H : is_Some _ |- _ => destruct H end;
    try match goal with
        | H : _ !! _ = Some _ |- _ => rewrite lookup_empty in H; discriminate
        end.
  match goal with H : _ ∈ [] |- _ => apply elem_of_nil in H; contradiction end.
Qed.

(** The generator returns; its workouts follow the schedule of the quarters,
    and its collections are linked. *)
Lemma generate_workouts_with_data_spec :
  ∃ st,
    generate_workouts_with_data R today = Some st
    ∧ map w_key (workouts st) = full_schedule
    ∧ gen_inv st.
Proof.
  unfold generate_workouts_with_data.
  destruct (quarter_loop_spec QUARTERS gen_state0 QUARTERS_well_formed)
    as (st & Hst & Hk & Hinv).
  exists st. split; [exact Hst|]. split; [exact Hk|].
  apply Hinv, gen_inv0.
Qed.

End QuarterLoop.

(** ** What the loops store and what they leave untouched *)

Lemma bind_Some {A B} (x : A) (f : A → option B) : Some x ≫= f = f x.
Proof. reflexivity. Qed.

Lemma startswith_app_l p x k :
  startswith (p +:+ x) k = true → startswith p k = true.
Proof.
  unfold startswith. revert k. induction p as [|c p IH]; intros k H.
  - destruct k; reflexivity.
  - destruct k as [|c' k]; simpl in *; [discriminate|].
    destruct (ascii_dec c c'); [eauto|discriminate].
Qed.

Lemma startswith_false_app p x k :
  startswith p k = false → startswith (p +:+ x) k = false.
Proof.
  intros H. destruct (startswith (p +:+ x) k) eqn:E; [|reflexivity].
  apply startswith_app_l in E. congruence.
Qed.

Lemma startswith_refl p : startswith p p = true.
Proof.
  unfold startswith. induction p as [|c p IH]; simpl; [reflexivity|].
  destruct (ascii_dec c c); [exact IH|congruence].
Qed.

Lemma startswith_false_ne p k : startswith p k = false → k ≠ p.
Proof. intros H ->. rewrite startswith_refl in H. discriminate. Qed.

Section SetLoopStores.
Context (R : py_runtime) (current_date : date) (is_past : bool)
        (wtype : workout_type) (ex_idx : Z) (instance_id : string)
        (instance_status : status) (reps : list Z) (target_weight : float).

(** The set loop appends the ids of its sets in order, stores a set under
    each of them, removes nothing, and touches no key that does not extend
    the instance id. *)
Lemma set_loop_stores n : ∀ set_num set_ids sets_ stats_,
  0 ≤ set_num → (Z.to_nat set_num + n = length reps)%nat →
  ∃ sets' stats',
    set_loop R current_date is_past wtype ex_idx instance_id instance_status
      reps target_weight n set_num set_ids sets_ stats_
    = Some ((set_ids ++ map (λ m, instance_id +:+ "_s" +:+ str (m + 1))
                            (seqZ set_num (Z.of_nat n)))%list, sets', stats')
    ∧ (∀ k, startswith instance_id k = false → sets' !! k = sets_ !! k)
    ∧ (∀ k, is_Some (sets_ !! k) → is_Some (sets' !! k))
    ∧ (∀ m, set_num ≤ m < set_num + Z.of_nat n →
         ∃ s, sets' !! (instance_id +:+ "_s" +:+ str (m + 1)) = Some s
              ∧ s_exerciseInstanceId s = instance_id
              ∧ s_targetWeight s
                = if bool_decide (wtype = strength) then Some target_weight
                  else None).
Proof.
  induction n as [|n IH]; intros set_num set_ids sets_ stats_ Hnn Hlen.
  - simpl. eexists _, _. rewrite app_nil_r. split; [reflexivity|].
    split; [auto|]. split; [auto|]. intros m Hm. lia.
  - cbn [set_loop].
    destruct (set_body_spec R current_date is_past wtype ex_idx instance_id
                instance_status reps target_weight set_num
                (instance_id +:+ "_s" +:+ str (set_num + 1))
                sets_ stats_ ltac:(lia)) as (s & stats' & -> & Hs & Htw).
    rewrite bind_Some. cbn beta iota.
    destruct (set_loop_spec R current_date is_past wtype ex_idx instance_id
                instance_status reps target_weight n (set_num + 1)
                (set_ids ++ [instance_id +:+ "_s" +:+ str (set_num + 1)])%list
                (<[instance_id +:+ "_s" +:+ str (set_num + 1) := s]> sets_) stats'
                ltac:(lia) ltac:(lia))
      as (ids0 & sets0 & stats0 & Hloop0 & Hprov).
    destruct (IH (set_num + 1)
                (set_ids ++ [instance_id +:+ "_s" +:+ str (set_num + 1)])%list
                (<[instance_id +:+ "_s" +:+ str (set_num + 1) := s]> sets_) stats'
                ltac:(lia) ltac:(lia))
      as (sets' & stats'' & Hloop & Hframe & Hmono & Hex).
    rewrite Hloop in Hloop0. injection Hloop0 as _ <- _. rewrite Hloop.
    eexists _, _. split.
    { rewrite (seqZ_cons set_num (Z.of_nat (S n))) by lia.
      rewrite <- app_assoc. cbn [map app].
      replace (Z.pred (Z.of_nat (S n))) with (Z.of_nat n) by lia.
      replace (Z.succ set_num) with (set_num + 1) by lia. reflexivity. }
    split; [|split].
    + intros k Hk. rewrite (Hframe k Hk). apply lookup_insert_ne.
      intros <-. rewrite startswith_self in Hk. discriminate.
    + intros k Hk. apply Hmono, lookup_insert_is_Some'. auto.
    + intros m Hm. destruct (decide (m = set_num)) as [->|Hne].
      * destruct (Hmono (instance_id +:+ "_s" +:+ str (set_num + 1)))
          as [s' Hs']; [apply lookup_insert_is_Some'; auto|].
        exists s'. split; [exact Hs'|].
        destruct (Hprov _ _ Hs') as [Hold|(? & ? & _)]; [|auto].
        rewrite lookup_insert_eq in Hold. injection Hold as <-. auto.
      * apply Hex. lia.
Qed.

End SetLoopStores.

Section ExerciseLoopStores.
Context (R : py_runtime) (current_date : date) (is_past : bool) (week_num : Z)
        (phase_ : phase) (workout_id : string) (wtype : workout_type)
        (protocol_id : string).

(** One exercise: its instance is stored under the workout id followed by
    _ex and the index; the instance lists the ids of its sets, each of them
    stored; every set stored anew belongs to the instance and, on a strength
    day, carries the weight round(one_rm * phase_intensity, 1); no other
    instance and no set under a key that does not extend the instance id is
    touched. *)
Lemma exercise_body_stores ex_idx exercise_id pv st :
  ∃ pv' st' i,
    exercise_body R current_date is_past week_num phase_ workout_id wtype
      protocol_id ex_idx exercise_id pv st = Some (pv', st')
    ∧ workouts st' = workouts st
    ∧ instances st' = <[workout_id +:+ "_ex" +:+ str ex_idx := i]> (instances st)
    ∧ i_id i = workout_id +:+ "_ex" +:+ str ex_idx
    ∧ i_exerciseId i = exercise_id
    ∧ i_workoutId i = workout_id
    ∧ i_orderIndex i = ex_idx
    ∧ (∃ n, i_setIds i = set_ids_of (i_id i) n
            ∧ (wtype = cardio → n = 1%nat)
            ∧ (wtype = strength → ∀ pr, PROTOCOLS !! protocol_id = Some pr →
                 n = length (pr_reps pr))
            ∧ (wtype = strength → n = 3%nat ∨ n = 5%nat))
    ∧ (∃ one_rm x,
         get_1rm_for_date exercise_id current_date = Some one_rm
         ∧ (wtype = strength → get_intensity_for_week week_num phase_ = Some x)
         ∧ Forall (λ sid, ∃ s, sets st' !! sid = Some s
                               ∧ s_exerciseInstanceId s = i_id i
                               ∧ s_targetWeight s
                                 = match wtype with
                                   | strength =>
                                       Some (round1 (float_of_int one_rm * x))
                                   | cardio => None
                                   end) (i_setIds i))
    ∧ (∀ k, startswith (workout_id +:+ "_ex" +:+ str ex_idx) k = false →
         sets st' !! k = sets st !! k)
    ∧ (∀ k, is_Some (sets st !! k) → is_Some (sets st' !! k))
    ∧ (∀ k s, sets st' !! k = Some s →
         sets st !! k = Some s
         ∨ (s_exerciseInstanceId s = i_id i
            ∧ (wtype = strength → ∀ one_rm x,
                 get_1rm_for_date exercise_id current_date = Some one_rm →
                 get_intensity_for_week week_num phase_ = Some x →
                 s_targetWeight s = Some (round1 (float_of_int one_rm * x))))).
Proof.
  unfold exercise_body.
  set (instance_id := workout_id +:+ "_ex" +:+ str ex_idx).
  set (instance_status := if is_past && should_skip_exercise R current_date ex_idx
                          then skipped else if is_past then completed else scheduled).
  assert (Hproto : ∃ pr pid x,
    match wtype with
    | cardio =>
        Some ({| pr_reps := [1]; pr_intensity := 0.5; pr_rest := 0 |},
              "cardio_30min_steady", 0.5%float)
    | strength =>
        dflt ← PROTOCOLS !! "strength_3x5_moderate";
        phase_intensity ← get_intensity_for_week week_num phase_;
        Some (default dflt (PROTOCOLS !! protocol_id), protocol_id, phase_intensity)
    end = Some (pr, pid, x)
    ∧ (wtype = cardio → length (pr_reps pr) = 1%nat)
    ∧ (wtype = strength →
         get_intensity_for_week week_num phase_ = Some x
         ∧ (∀ pr', PROTOCOLS !! protocol_id = Some pr' → pr = pr')
         ∧ (length (pr_reps pr) = 3%nat ∨ length (pr_reps pr) = 5%nat))).
  { destruct wtype.
    - replace (PROTOCOLS !! "strength_3x5_moderate")
        with (Some {| pr_reps := [5; 5; 5]; pr_intensity := 0.75; pr_rest := 180 |})
        by (vm_compute; reflexivity).
      destruct (get_intensity_for_week_total week_num phase_) as [x Hx].
      rewrite Hx. simpl. eexists _, _, _. split; [reflexivity|].
      split; [discriminate|]. intros _. split; [reflexivity|].
      split; [intros pr' ->; reflexivity|].
      destruct (PROTOCOLS !! protocol_id) as [pr'|] eqn:Hpr; [|left; reflexivity].
      apply elem_of_list_to_map_2 in Hpr.
      rewrite !elem_of_cons, elem_of_nil in Hpr. cbn [default].
      repeat (destruct Hpr as [Hpr|Hpr]); try contradiction;
        injection Hpr as _ ->; cbn; auto.
    - eexists _, _, _. split; [reflexivity|]. split; [reflexivity|]. discriminate. }
  destruct Hproto as (pr & pid & x & -> & Hcardio & Hstrength).
  rewrite bind_Some. cbn beta iota.
  destruct (get_1rm_for_date_total exercise_id current_date) as [one_rm Hrm].
  rewrite Hrm, bind_Some.
  destruct (set_loop_stores R current_date is_past wtype ex_idx instance_id
              instance_status (pr_reps pr) (round1 (float_of_int one_rm * x))
              (length (pr_reps pr)) 0 [] (sets st)
              (bump_exercises instance_status (total_stats st))
              ltac:(lia) ltac:(lia))
    as (sets' & stats' & Hloop & Hframe & Hmono & Hex).
  destruct (set_loop_spec R current_date is_past wtype ex_idx instance_id
              instance_status (pr_reps pr) (round1 (float_of_int one_rm * x))
              (length (pr_reps pr)) 0 [] (sets st)
              (bump_exercises instance_status (total_stats st))
              ltac:(lia) ltac:(lia))
    as (set_ids2 & sets2 & stats2 & Hloop2 & Hprov).
  rewrite Hloop in Hloop2. injection Hloop2 as <- <- <-.
  rewrite Hloop, bind_Some. cbn beta iota.
  eexists _, _, _. split; [reflexivity|]. cbn [workouts instances sets].
  split; [reflexivity|]. split; [reflexivity|].
  cbn [i_id i_exerciseId i_workoutId i_orderIndex i_setIds].
  do 4 (split; [reflexivity|]).
  split; [|split; [|split; [exact Hframe|split; [exact Hmono|]]]].
  - exists (length (pr_reps pr)). split; [reflexivity|]. split; [exact Hcardio|].
    split.
    + intros Hs pr' Hpr'. destruct (Hstrength Hs) as (_ & Heq & _).
      rewrite (Heq pr' Hpr'). reflexivity.
    + intros Hs. destruct (Hstrength Hs) as (_ & _ & Hlen). exact Hlen.
  - exists one_rm, x. split; [reflexivity|].
    split; [intros Hs; apply Hstrength, Hs|].
    apply Forall_forall. intros sid Hsid. cbn [app] in Hsid.
    apply list_elem_of_fmap in Hsid as (m & -> & Hm).
    apply elem_of_seqZ in Hm.
    destruct (Hex m ltac:(lia)) as (s & Hs & Hiid & Htw).
    exists s. split; [exact Hs|]. split; [exact Hiid|].
    rewrite Htw. destruct wtype; reflexivity.
  - intros k s Hk. destruct (Hprov k s Hk) as [Hold|(Hiid & Htw & _)]; [auto|].
    right. split; [exact Hiid|].
    intros Hs one_rm' x' Hrm' Hx'. destruct (Hstrength Hs) as (Hx & _).
    rewrite Htw, Hs. rewrite bool_decide_eq_true_2 by reflexivity.
    congruence.
Qed.

(** The exercises of a workout, from index [ex_idx] on: the instances and
    sets under keys that extend none of their instance ids are untouched,
    and nothing is removed. *)
Lemma exercise_loop_frame exercise_ids : ∀ ex_idx pv st,
  ∃ pv' st',
    exercise_loop R current_date is_past week_num phase_ workout_id wtype
      protocol_id ex_idx exercise_ids pv st = Some (pv', st')
    ∧ workouts st' = workouts st
    ∧ (∀ k, (∀ j, ex_idx ≤ j < ex_idx + Z.of_nat (length exercise_ids) →
               startswith (workout_id +:+ "_ex" +:+ str j) k = false) →
         sets st' !! k = sets st !! k ∧ instances st' !! k = instances st !! k)
    ∧ (∀ k, is_Some (sets st !! k) → is_Some (sets st' !! k)).
Proof.
  induction exercise_ids as [|e rest IH]; intros ex_idx pv st.
  - simpl. eexists _, _. split; [reflexivity|]. auto.
  - cbn [exercise_loop].
    destruct (exercise_body_stores ex_idx e pv st)
      as (pv1 & st1 & i & -> & Hw1 & Hi1 & _ & _ & _ & _ & _ & _ & Hf1 & Hm1 & _).
    rewrite bind_Some. cbn beta iota.
    destruct (IH (ex_idx + 1) pv1 st1) as (pv2 & st2 & -> & Hw2 & Hf2 & Hm2).
    eexists _, _. split; [reflexivity|]. split; [congruence|]. split; [|auto].
    intros k Hk. cbn [length] in Hk.
    destruct (Hf2 k) as [Hs2 Hi2]; [intros j Hj; apply Hk; lia|].
    rewrite Hs2, Hi2, Hi1, (Hf1 k) by (apply Hk; lia).
    split; [reflexivity|]. apply lookup_insert_ne.
    apply not_eq_sym, startswith_false_ne, Hk. lia.
Qed.

End ExerciseLoopStores.

Section DayFrame.
Context (R : py_runtime) (today : date).

Lemma day_body_frame quarter_id c week_num st :
  ∃ st',
    day_body R today quarter_id c week_num st = Some (next_week c week_num, st')
    ∧ frame_of (day_keys c week_num) st st'.
Proof.
  unfold day_body, day_keys, frame_of.
  destruct (get_phase_for_week_total week_num) as [[phase_idx phase_] ->]. simpl.
  destruct (plan_day (weekday c) (strftime_Ymd c) week_num (ph_protocol phase_))
    as [dp|] eqn:Hplan.
  2:{ rewrite (plan_day_None _ _ _ _ Hplan).
      eexists. split; [reflexivity|]. split; [exists []; rewrite app_nil_r|]; auto. }
  destruct (plan_day_cases _ _ _ _ _ Hplan) as [Hpre ->]. simpl.
  destruct (select_exercises_total c (dp_type dp)) as [exercise_ids ->]. simpl.
  set (is_past := date_lt c today).
  destruct (is_past && should_skip_workout R c) eqn:Hskip; simpl.
  - eexists. split; [reflexivity|]. simpl. split; [eauto|auto].
  - match goal with
    | |- context [exercise_loop ?R ?c ?p ?w ?ph ?wid ?t ?pid ?i ?es ?pv ?s] =>
        destruct (exercise_loop_frame R c p w ph wid t pid es i pv s)
          as (pv' & st1 & -> & Hws & Hframe & _)
    end.
    simpl. eexists. split; [reflexivity|]. simpl.
    split; [rewrite Hws; simpl; eauto|].
    intros k Hk. apply Forall_cons in Hk as [Hk _]. simpl in Hk.
    destruct (Hframe k) as [Hs Hi].
    { intros j _.
      apply (startswith_false_app (dp_workout_id dp) ("_ex" +:+ str j) k Hk). }
    rewrite Hs, Hi. auto.
Qed.

Lemma frame_of_trans ks1 ks2 st1 st2 st3 :
  frame_of ks1 st1 st2 → frame_of ks2 st2 st3 → frame_of (ks1 ++ ks2) st1 st3.
Proof.
  intros [[ws1 Hw1] Hf1] [[ws2 Hw2] Hf2]. split.
  - exists (ws1 ++ ws2)%list. rewrite Hw2, Hw1, app_assoc. reflexivity.
  - intros k Hk. apply Forall_app in Hk as [Hk1 Hk2].
    destruct (Hf1 k Hk1) as [<- <-]. exact (Hf2 k Hk2).
Qed.

Lemma frame_of_refl st : frame_of [] st st.
Proof. split; [exists []; rewrite app_nil_r|]; auto. Qed.

Lemma day_loop_frame quarter_id end_date n : ∀ c week_num st,
  n = Z.to_nat (toordinal end_date - toordinal c + 1) →
  ∃ st',
    day_loop R today n quarter_id end_date c week_num st = Some st'
    ∧ frame_of (schedule n c week_num) st st'.
Proof.
  induction n as [|n IH]; intros c week_num st Hn; simpl.
  - unfold date_le.
    destruct (Z.leb_spec (toordinal c) (toordinal end_date)); [lia|].
    eexists. split; [reflexivity|]. apply frame_of_refl.
  - unfold date_le.
    destruct (Z.leb_spec (toordinal c) (toordinal end_date)) as [Hle|Hgt]; [|lia].
    destruct (day_body_frame quarter_id c week_num st) as (st1 & -> & Hf1).
    simpl.
    destruct (IH (add_days c 1) (next_week c week_num) st1 ltac:(simpl; lia))
      as (st2 & -> & Hf2).
    eexists. split; [reflexivity|]. exact (frame_of_trans _ _ _ _ _ Hf1 Hf2).
Qed.

Lemma quarter_body_frame q st :
  is_Some (strptime (q_start q)) → is_Some (strptime (q_end q)) →
  ∃ st',
    quarter_body R today q st = Some st'
    ∧ frame_of (quarter_schedule q) st st'.
Proof.
  intros [s Hs] [e He]. unfold quarter_body, quarter_schedule.
  rewrite Hs, He. cbn -[find_first_monday day_loop Z.to_nat].
  rewrite find_first_monday_spec. cbn -[day_loop Z.to_nat].
  apply day_loop_frame. reflexivity.
Qed.

Lemma quarter_loop_frame qs : ∀ st,
  Forall (λ q, is_Some (strptime (q_start q)) ∧ is_Some (strptime (q_end q))) qs →
  ∃ st',
    quarter_loop R today qs st = Some st'
    ∧ frame_of (concat (map quarter_schedule qs)) st st'.
Proof.
  induction qs as [|q qs IH]; intros st Hqs; simpl.
  - eexists. split; [reflexivity|]. apply frame_of_refl.
  - inversion Hqs as [|? ? [Hs He] Hrest]; subst.
    destruct (quarter_body_frame q st Hs He) as (st1 & -> & Hf1). simpl.
    destruct (IH st1 Hrest) as (st2 & -> & Hf2).
    eexists. split; [reflexivity|]. exact (frame_of_trans _ _ _ _ _ Hf1 Hf2).
Qed.

End DayFrame.
(** ** The first strength workout *)

Lemma exercise_loop_cons R c is_past week_num phase_ wid wtype pid ex_idx e rest pv st :
  exercise_loop R c is_past week_num phase_ wid wtype pid ex_idx (e :: rest) pv st
  = exercise_body R c is_past week_num phase_ wid wtype pid ex_idx e pv st
    ≫= λ '(pv, st), exercise_loop R c is_past week_num phase_ wid wtype pid
                      (ex_idx + 1) rest pv st.
Proof. reflexivity. Qed.

Lemma squat_in_first_quarter d :
  date_between "2024-10-01" "2024-12-31" d →
  get_1rm_for_date "barbell_back_squat" d = Some 170.
Proof.
  intros (da & db & Ha & Hb & Hd).
  vm_compute in Ha, Hb. injection Ha as <-. injection Hb as <-. simpl in Hd.
  unfold get_1rm_for_date.
  replace (ONE_RM_PROGRESSION !! "barbell_back_squat")
    with (Some [170; 180; 215; 220; 195]) by (vm_compute; reflexivity).
  rewrite get_1rm_loop_QUARTERS. simpl. case_leb; reflexivity.
Qed.

(** The iteration of Monday 2024-10-07, the first day of the walk, on the
    empty accumulators. *)
Lemma first_day_body R today :
  ∃ st1 w,
    day_body R today "q4_2024" (fromordinal 739166) 1 gen_state0 = Some (1, st1)
    ∧ workouts st1 = [w]
    ∧ w_id w = "bobby_20241007_strength"
    ∧ w_type w = strength
    ∧ w_name w = "Week 1 Full Body A"
    ∧ w_scheduledDate w = "2024-10-07T10:00:00Z"
    ∧ (date_lt (fromordinal 739166) today
       && should_skip_workout R (fromordinal 739166) = false →
       w_status w ≠ skipped
       ∧ w_exerciseIds w !! 0%nat = Some "barbell_back_squat"
       ∧ ∃ i, instances st1 !! "bobby_20241007_strength_ex0" = Some i
              ∧ i_exerciseId i = "barbell_back_squat"
              ∧ i_workoutId i = "bobby_20241007_strength"
              ∧ i_setIds i = ["bobby_20241007_strength_ex0_s1";
                              "bobby_20241007_strength_ex0_s2";
                              "bobby_20241007_strength_ex0_s3"]
              ∧ Forall (λ sid, ∃ s, sets st1 !! sid = Some s
                                    ∧ s_exerciseInstanceId s
                                      = "bobby_20241007_strength_ex0"
                                    ∧ s_targetWeight s = Some 102.0%float)
                       (i_setIds i)).
Proof.
  assert (Hplan : plan_day (weekday (fromordinal 739166))
                    (strftime_Ymd (fromordinal 739166)) 1 (ph_protocol Accumulation)
                  = Some {| dp_workout_id := "bobby_20241007_strength";
                            dp_type := strength;
                            dp_split_day := "full_body";
                            dp_name := "Week 1 Full Body A";
                            dp_protocol_id := "strength_3x10_moderate" |})
    by (vm_compute; reflexivity).
  assert (Hsel : select_exercises_for_workout (fromordinal 739166) strength
                 = Some ["barbell_back_squat"; "overhead_press"; "barbell_row";
                         "tricep_extension"; "barbell_curl"])
    by (vm_compute; reflexivity).
  assert (Hiso : isoformat (fromordinal 739166) = "2024-10-07")
    by (vm_compute; reflexivity).
  assert (Hwd : (weekday (fromordinal 739166) =? 6) = false)
    by (vm_compute; reflexivity).
  unfold day_body.
  replace (get_phase_for_week 1) with (Some (0, Accumulation)) by reflexivity.
  rewrite bind_Some. cbv beta iota zeta. rewrite Hplan.
  cbn [dp_type dp_workout_id dp_protocol_id dp_name dp_split_day].
  rewrite Hsel, bind_Some, Hiso, Hwd.
  destruct (date_lt (fromordinal 739166) today
            && should_skip_workout R (fromordinal 739166)) eqn:Hgate.
  - rewrite bind_Some. cbv beta iota.
    eexists _, _. split; [reflexivity|]. cbn [workouts app gen_state0].
    split; [reflexivity|]. do 4 (split; [reflexivity|]). discriminate.
  - rewrite exercise_loop_cons.
    match goal with
    | |- context [exercise_body ?R ?c ?p ?w ?ph ?wid ?t ?pid ?i ?e ?pv ?s] =>
        destruct (exercise_body_stores R c p w ph wid t pid i e pv s)
          as (pv1 & sta & i0 & -> & Hwa & Hia & Hid & Hex & Hwk & Hoi
              & (n & Hsids & _ & Hn & _) & Hall & _ & _ & Hprov)
    end.
    rewrite bind_Some. cbv beta iota.
    match goal with
    | |- context [exercise_loop ?R ?c ?p ?w ?ph ?wid ?t ?pid ?i ?es ?pv ?s] =>
        destruct (exercise_loop_frame R c p w ph wid t pid es i pv s)
          as (pv2 & stb & -> & Hwb & Hframe & _)
    end.
    rewrite bind_Some. cbv beta iota.
    eexists _, _. split; [reflexivity|].
    cbn [workouts instances sets w_id w_type w_name w_scheduledDate w_status
         w_exerciseIds].
    rewrite Hwb, Hwa. cbn [workouts gen_state0 app].
    split; [reflexivity|]. do 4 (split; [reflexivity|]). intros _.
    split; [destruct (date_lt (fromordinal 739166) today); discriminate|].
    split; [reflexivity|].
    assert (Hn3 : n = 3%nat).
    { rewrite (Hn eq_refl {| pr_reps := [10; 10; 10]; pr_intensity := 0.60;
                             pr_rest := 90 |}); [reflexivity|].
      vm_compute. reflexivity. }
    subst n. rewrite Hid in Hsids.
    change (set_ids_of ("bobby_20241007_strength" +:+ "_ex" +:+ str 0) 3)
      with ["bobby_20241007_strength_ex0_s1"; "bobby_20241007_strength_ex0_s2";
            "bobby_20241007_strength_ex0_s3"] in Hsids.
    assert (Hkeep : ∀ k, k ∈ ["bobby_20241007_strength_ex0";
                              "bobby_20241007_strength_ex0_s1";
                              "bobby_20241007_strength_ex0_s2";
                              "bobby_20241007_strength_ex0_s3"] →
              sets stb !! k = sets sta !! k
              ∧ instances stb !! k = instances sta !! k).
    { intros k Hk. apply Hframe. intros j Hj. cbn [length] in Hj.
      assert (Hjs : j = 1 ∨ j = 2 ∨ j = 3 ∨ j = 4) by lia.
      rewrite !elem_of_cons, elem_of_nil in Hk.
      repeat (destruct Hk as [Hk|Hk]); try contradiction; subst k;
        repeat (destruct Hjs as [Hjs|Hjs]); subst j; vm_compute; reflexivity. }
    exists i0.
    split.
    { rewrite (proj2 (Hkeep _ ltac:(left))), Hia.
      apply lookup_insert_eq. }
    split; [exact Hex|]. split; [exact Hwk|]. split; [exact Hsids|].
    destruct Hall as (rm0 & x0 & _ & _ & Hall).
    rewrite Hsids in Hall |- *.
    apply Forall_forall. intros sid Hsid.
    rewrite Forall_forall in Hall. destruct (Hall sid Hsid) as (s & Hs & _).
    exists s. rewrite (proj1 (Hkeep sid ltac:(right; exact Hsid))).
    split; [exact Hs|].
    destruct (Hprov sid s Hs) as [Hold|[Hiid Htw]].
    + cbn [sets gen_state0] in Hold. rewrite lookup_empty in Hold. discriminate.
    + split; [rewrite Hiid, Hid; reflexivity|].
      rewrite (Htw eq_refl 170 0.60%float).
      * f_equal.
      * apply squat_in_first_quarter.
        exists (fromordinal 739160), (fromordinal 739251).
        split; [vm_compute; reflexivity|].
        split; [vm_compute; reflexivity|]. simpl. lia.
      * vm_compute. reflexivity.
Qed.

Lemma quarter_body_first_day R today q st s e :
  strptime (q_start q) = Some s → strptime (q_end q) = Some e →
  toordinal (first_monday s) ≤ toordinal e →
  quarter_body R today q st
  = day_body R today (quarter_id_of q) (first_monday s) 1 st
    ≫= λ '(week_num, st1),
         day_loop R today (Z.to_nat (toordinal e - toordinal (first_monday s)))
           (quarter_id_of q) e (add_days (first_monday s) 1) week_num st1.
Proof.
  intros Hs He Hle. unfold quarter_body.
  rewrite Hs, bind_Some, He, bind_Some, find_first_monday_spec, bind_Some.
  replace (Z.to_nat (toordinal e - toordinal (first_monday s) + 1))
    with (S (Z.to_nat (toordinal e - toordinal (first_monday s)))) by lia.
  cbn [day_loop]. unfold date_le at 1.
  destruct (Z.leb_spec (toordinal (first_monday s)) (toordinal e)); [|lia].
  reflexivity.
Qed.

(** The run as its first day followed by the rest of the schedule. *)
Lemma generator_after_first_day R today :
  ∃ st1 st,
    day_body R today "q4_2024" (fromordinal 739166) 1 gen_state0 = Some (1, st1)
    ∧ generate_workouts_with_data R today = Some st
    ∧ frame_of (tail full_schedule) st1 st.
Proof.
  destruct (day_body_frame R today "q4_2024" (fromordinal 739166) 1 gen_state0)
    as (st1 & Hday & _).
  change (next_week (fromordinal 739166) 1) with 1 in Hday.
  unfold generate_workouts_with_data, QUARTERS.
  match goal with
  | |- context [quarter_loop _ _ (?q :: ?rest) _] =>
      change (quarter_loop R today (q :: rest) gen_state0)
        with (quarter_body R today q gen_state0 ≫= quarter_loop R today rest);
      rewrite (quarter_body_first_day R today q gen_state0
                 (fromordinal 739160) (fromordinal 739251))
        by (vm_compute; first [reflexivity | discriminate]);
      pose proof (quarter_loop_frame R today rest) as Hrest
  end.
  change (first_monday (fromordinal 739160)) with (fromordinal 739166).
  match goal with
  | |- context [quarter_id_of ?q] =>
      change (quarter_id_of q) with "q4_2024"
  end.
  rewrite Hday, bind_Some. cbv beta iota.
  match goal with
  | |- context [day_loop ?R ?t ?n ?qid ?e ?c ?w ?s] =>
      destruct (day_loop_frame R t qid e n c w s ltac:(vm_compute; reflexivity))
        as (st2 & -> & Hf2)
  end.
  rewrite bind_Some.
  destruct (Hrest st2) as (st & -> & Hf3).
  { repeat constructor; vm_compute; eauto. }
  exists st1, st. split; [reflexivity|]. split; [reflexivity|].
  exact (frame_of_trans _ _ _ _ _ Hf2 Hf3).
Qed.

Lemma first_workout_keys_apart :
  Forall (λ k, Forall (λ key : workout_key, startswith key.1.1.2 k = false)
                      (tail full_schedule))
    ["bobby_20241007_strength_ex0"; "bobby_20241007_strength_ex0_s1";
     "bobby_20241007_strength_ex0_s2"; "bobby_20241007_strength_ex0_s3"].
Proof. refine (bool_decide_unpack _ _). vm_compute. exact I. Qed.


(** ** The one-rep-max contract *)

(** C3: inside Q4 2024 the lookup of barbell_back_squat returns 170; for an
    exercise of the progression table and a date inside the i-th quarter it
    returns the i-th value of the exercise's list; an exercise id that is not
    in the table gets 100; a date outside every quarter gets the last value of
    the list; and in Q4 2024 the week-1 target weight of barbell_back_squat,
    the 1RM times the week-1 intensity rounded to one decimal, is
    round(170 * 0.60, 1) = 102.0, which is the target weight of every set
    that the generator stores for that exercise on a strength day of week 1
    (phase Accumulation) in that quarter; and in every run the first workout
    of the generated list is the strength workout of Monday 2024-10-07, week 1,
    and, unless the skip gate skips it, its first exercise is
    barbell_back_squat, whose instance is stored with its three sets, each of
    them stored with the target weight 102.0. *)
Theorem get_1rm_for_date_contract :
  (∀ d, date_between "2024-10-01" "2024-12-31" d →
     get_1rm_for_date "barbell_back_squat" d = Some 170)
  ∧ (∀ e values i q d,
       ONE_RM_PROGRESSION !! e = Some values →
       QUARTERS !! i = Some q → in_quarter q d →
       ∃ v, values !! i = Some v ∧ get_1rm_for_date e d = Some v)
  ∧ (∀ e d, ONE_RM_PROGRESSION !! e = None → get_1rm_for_date e d = Some 100)
  ∧ (∀ e values d,
       ONE_RM_PROGRESSION !! e = Some values →
       (∀ q, q ∈ QUARTERS → ¬ in_quarter q d) →
       get_1rm_for_date e d = last values)
  ∧ (∀ d, date_between "2024-10-01" "2024-12-31" d →
       ∃ one_rm x, get_1rm_for_date "barbell_back_squat" d = Some one_rm
                   ∧ week_intensity 1 = Some x
                   ∧ x = 0.60%float
                   ∧ round1 (float_of_int one_rm * x) = round1 (170 * 0.60)
                   ∧ round1 (170 * 0.60) = 102.0%float)
  ∧ get_phase_for_week 1 = Some (0, Accumulation)
  ∧ (∀ R c is_past wid pid ex_idx pv st pv' st',
       date_between "2024-10-01" "2024-12-31" c →
       exercise_body R c is_past 1 Accumulation wid strength pid ex_idx
         "barbell_back_squat" pv st = Some (pv', st') →
       ∀ k s, sets st' !! k = Some s →
         sets st !! k = Some s ∨ s_targetWeight s = Some 102.0%float)
  ∧ (∀ R today,
       ∃ st w ws,
         generate_workouts_with_data R today = Some st
         ∧ workouts st = w :: ws
         ∧ w_id w = "bobby_20241007_strength"
         ∧ w_type w = strength
         ∧ w_name w = "Week 1 Full Body A"
         ∧ w_scheduledDate w = "2024-10-07T10:00:00Z"
         ∧ (date_lt (fromordinal 739166) today
            && should_skip_workout R (fromordinal 739166) = false →
            w_status w ≠ skipped
            ∧ w_exerciseIds w !! 0%nat = Some "barbell_back_squat"
            ∧ ∃ i, instances st !! "bobby_20241007_strength_ex0" = Some i
                   ∧ i_exerciseId i = "barbell_back_squat"
                   ∧ i_workoutId i = w_id w
                   ∧ i_setIds i = ["bobby_20241007_strength_ex0_s1";
                                   "bobby_20241007_strength_ex0_s2";
                                   "bobby_20241007_strength_ex0_s3"]
                   ∧ Forall (λ sid, ∃ s, sets st !! sid = Some s
                                         ∧ s_exerciseInstanceId s
                                           = "bobby_20241007_strength_ex0"
                                         ∧ s_targetWeight s = Some 102.0%float)
                            (i_setIds i))).
Proof.
  pose proof squat_in_first_quarter as Hsquat.
  split; [exact Hsquat|]. split; [|split; [|split; [|split; [|split; [|split]]]]].
  - intros e values i q d He Hq Hin.
    pose proof (ONE_RM_PROGRESSION_lengths _ _ He) as Hlen.
    destruct (in_quarter_ordinals _ _ _ Hq Hin) as (a & b & Hab & Hd).
    unfold get_1rm_for_date. rewrite He, get_1rm_loop_QUARTERS. simpl.
    rewrite Hlen.
    destruct values as [|v0 [|v1 [|v2 [|v3 [|v4 [|]]]]]]; try discriminate.
    destruct i as [|[|[|[|[|i]]]]]; simpl in Hab; try discriminate;
      injection Hab as <- <-; simpl; case_leb; eexists; split; reflexivity.
  - intros e d He. unfold get_1rm_for_date. rewrite He. reflexivity.
  - intros e values d He Hout.
    unfold get_1rm_for_date. rewrite He, get_1rm_loop_QUARTERS. simpl.
    assert (Hno : ∀ i q a b, QUARTERS !! i = Some q →
                strptime (q_start q) = Some (fromordinal a) →
                strptime (q_end q) = Some (fromordinal b) →
                ¬ a ≤ toordinal d ≤ b).
    { intros i q a b Hq Ha Hb Hd. apply (Hout q).
      - eapply list_elem_of_lookup_2; eassumption.
      - exists (fromordinal a), (fromordinal b). auto. }
    pose proof (Hno 0%nat _ 739160 739251 eq_refl eq_refl eq_refl).
    pose proof (Hno 1%nat _ 739252 739341 eq_refl eq_refl eq_refl).
    pose proof (Hno 2%nat _ 739342 739432 eq_refl eq_refl eq_refl).
    pose proof (Hno 3%nat _ 739433 739524 eq_refl eq_refl eq_refl).
    pose proof (Hno 4%nat _ 739525 739616 eq_refl eq_refl eq_refl).
    case_leb; reflexivity.
  - intros d Hd. exists 170, 0.60%float.
    split; [apply Hsquat; assumption|].
    repeat split; vm_compute; reflexivity.
  - reflexivity.
  - intros R c is_past wid pid ex_idx pv st pv' st' Hc Hbody k s Hk.
    assert (Hx : get_intensity_for_week 1 Accumulation = Some 0.60%float)
      by (vm_compute; reflexivity).
    destruct (exercise_body_target _ _ _ _ _ _ _ _ _ _ _ _ _ _ _
                Hbody (Hsquat c Hc) Hx k s Hk) as [Hold|Hnew]; [auto|].
    right. rewrite Hnew. f_equal.
  - intros R today.
    destruct (generator_after_first_day R today)
      as (st1 & st & Hday & Hst & [[ws Hws] Hframe]).
    destruct (first_day_body R today)
      as (st1' & w & Hday' & Hw & Hid & Hty & Hname & Hdate & Hkept).
    rewrite Hday in Hday'. injection Hday' as <-.
    exists st, w, ws. split; [exact Hst|].
    split; [rewrite Hws, Hw; reflexivity|].
    do 4 (split; [assumption|]). intros Hgate.
    destruct (Hkept Hgate) as (Hlive & Hfirst & i & Hi & Hex & Hwid & Hsids & Hsets).
    split; [exact Hlive|]. split; [exact Hfirst|].
    pose proof first_workout_keys_apart as Hapart.
    rewrite Forall_forall in Hapart.
    exists i. split.
    { rewrite (proj2 (Hframe _ (Hapart _ ltac:(left)))). exact Hi. }
    split; [exact Hex|]. split; [congruence|]. split; [exact Hsids|].
    rewrite Hsids in Hsets |- *.
    apply Forall_forall. intros sid Hsid.
    rewrite Forall_forall in Hsets. destruct (Hsets sid Hsid) as (s & Hs & Hp).
    exists s. split; [|exact Hp].
    rewrite (proj1 (Hframe _ (Hapart _ ltac:(right; exact Hsid)))). exact Hs.
Qed.

(** The lookup on 2024-11-15 (ordinal 739205), and the run of 2024-10-07, on
    which the first workout is not in the past, through the theorem. *)
Lemma get_1rm_for_date_contract_witness :
  get_1rm_for_date "barbell_back_squat" (fromordinal 739205) = Some 170
  ∧ ∃ st s,
      generate_workouts_with_data (salted_runtime 1) (fromordinal 739166) = Some st
      ∧ sets st !! "bobby_20241007_strength_ex0_s1" = Some s
      ∧ s_targetWeight s = Some 102.0%float.
Proof.
  destruct get_1rm_for_date_contract as (Hlookup & _ & _ & _ & _ & _ & _ & Hrun).
  split.
  - apply (Hlookup (fromordinal 739205)).
    exists (fromordinal 739160), (fromordinal 739251).
    split; [vm_compute; reflexivity|].
    split; [vm_compute; reflexivity|]. simpl. lia.
  - destruct (Hrun (salted_runtime 1) (fromordinal 739166))
      as (st & w & ws & Hst & _ & _ & _ & _ & _ & Hkept).
    destruct (Hkept ltac:(vm_compute; reflexivity))
      as (_ & _ & i & _ & _ & _ & Hsids & Hsets).
    rewrite Hsids in Hsets. apply Forall_cons in Hsets as [(s & Hs & _ & Htw) _].
    exists st, s. split; [exact Hst|]. split; [exact Hs|exact Htw].
Defined.


(** ** The schedule of the quarters, evaluated *)

Lemma schedule_check_true : schedule_check = true.
Proof. vm_compute. reflexivity. Qed.

Lemma full_schedule_ids_NoDup :
  NoDup (map (λ k : workout_key, k.1.1.2) full_schedule).
Proof. refine (bool_decide_unpack _ _). vm_compute. exact I. Qed.


(** ** The generated collections *)

Lemma keys_on_map d ws : map w_key (records_on d ws) = keys_on d (map w_key ws).
Proof.
  unfold records_on, keys_on.
  induction ws as [|w ws IH]; [reflexivity|].
  simpl map. rewrite !filter_cons. simpl.
  destruct (decide (w_scheduledDate w = isoformat d +:+ "T10:00:00Z"));
    simpl; rewrite IH; reflexivity.
Qed.

Lemma schedule_check_day q s e d :
  q ∈ QUARTERS →
  strptime (q_start q) = Some s → strptime (q_end q) = Some e →
  toordinal s ≤ toordinal d ≤ toordinal e →
  keys_on d full_schedule = expected_records s d.
Proof.
  intros Hq Hs He Hd.
  pose proof schedule_check_true as Hchk. unfold schedule_check in Hchk.
  cbv zeta in Hchk. rewrite forallb_forall in Hchk.
  specialize (Hchk q (proj1 (list_elem_of_In _ _) Hq)).
  rewrite Hs, He, forallb_forall in Hchk.
  specialize (Hchk (toordinal d)).
  destruct d as [n]. cbn [toordinal] in Hd, Hchk.
  assert (Hin : In n (seqZ (toordinal s) (toordinal e - toordinal s + 1)))
    by (apply list_elem_of_In, elem_of_seqZ; lia).
  apply Hchk in Hin. apply bool_decide_eq_true in Hin. exact Hin.
Qed.

Lemma NoDup_map_inj_on {A B} (f : A → B) (l : list A) x y :
  NoDup (map f l) → x ∈ l → y ∈ l → f x = f y → x = y.
Proof.
  induction l as [|a l IH]; intros Hnd Hx Hy Hf.
  - apply elem_of_nil in Hx. contradiction.
  - simpl in Hnd. apply NoDup_cons in Hnd as [Hna Hnd].
    apply elem_of_cons in Hx as [->|Hx], Hy as [->|Hy]; auto.
    + exfalso. apply Hna. rewrite Hf. apply (list_elem_of_fmap_2 f), Hy.
    + exfalso. apply Hna. rewrite <- Hf. apply (list_elem_of_fmap_2 f), Hx.
Qed.

Lemma workout_ids_NoDup ws :
  map w_key ws = full_schedule → NoDup (map w_id ws).
Proof.
  intros Hk. pose proof full_schedule_ids_NoDup as Hnd.
  rewrite <- Hk, map_map in Hnd. exact Hnd.
Qed.

Lemma live_ids_elem id ws :
  id ∈ live_ids ws → ∃ w, w ∈ ws ∧ w_id w = id ∧ w_status w ≠ skipped.
Proof.
  unfold live_ids. intros Hin.
  apply list_elem_of_fmap in Hin as (w & -> & Hw).
  apply list_elem_of_filter in Hw as [Hst Hw]. eauto.
Qed.

(** C8: the generator returns, and in what it returns every set names, as its
    exerciseInstanceId, the key of an instance of the instance collection,
    and every instance names, as its workoutId, the id of a workout of the
    workout list. *)
Theorem generated_references_resolve R today :
  ∃ st,
    generate_workouts_with_data R today = Some st
    ∧ (∀ k s, sets st !! k = Some s →
         ∃ i, instances st !! s_exerciseInstanceId s = Some i)
    ∧ (∀ k i, instances st !! k = Some i →
         ∃ w, w ∈ workouts st ∧ w_id w = i_workoutId i).
Proof.
  destruct (generate_workouts_with_data_spec R today)
    as (st & Hst & _ & Hsl & Hil & _).
  exists st. split; [exact Hst|]. split.
  - intros k s Hk. exact (Hsl k s Hk).
  - intros k i Hk.
    destruct (live_ids_elem _ _ (Hil k i Hk)) as (w & Hw & Hid & _). eauto.
Qed.

(** The iteration with its selection calls recorded returns what
    [day_body] returns, and records one call, for the day and its workout
    type, on every training day: the call does not wait for the skip gate. *)
Lemma day_body_calls_spec R today quarter_id c week_num st :
  ∃ st',
    day_body R today quarter_id c week_num st = Some (next_week c week_num, st')
    ∧ day_body_calls R today quarter_id c week_num st
      = Some (next_week c week_num, st',
              map (λ key : workout_key, (c, key.1.2)) (day_keys c week_num)).
Proof.
  unfold day_body_calls, day_body, day_keys.
  destruct (get_phase_for_week_total week_num) as [[phase_idx phase_] ->]. simpl.
  destruct (plan_day (weekday c) (strftime_Ymd c) week_num (ph_protocol phase_))
    as [dp|] eqn:Hplan.
  2:{ rewrite (plan_day_None _ _ _ _ Hplan). eexists. split; reflexivity. }
  destruct (plan_day_cases _ _ _ _ _ Hplan) as [_ ->]. simpl.
  destruct (select_exercises_total c (dp_type dp)) as [exercise_ids ->]. simpl.
  destruct (date_lt c today && should_skip_workout R c); simpl.
  - eexists. split; reflexivity.
  - match goal with
    | |- context [exercise_loop ?R ?c ?p ?w ?ph ?wid ?t ?pid ?i ?es ?pv ?s] =>
        destruct (exercise_loop_frame R c p w ph wid t pid es i pv s)
          as (pv' & st1 & -> & _)
    end.
    simpl. eexists. split; reflexivity.
Qed.

(** C10, as amended: an iteration of the day loop on a past training day
    that the skip gate skips leaves the instance and set collections as they
    were and appends a skipped record without exercise ids; in what the
    generator returns, a skipped workout has no exercise ids, no instance
    names it as its workout, and hence no set belongs to an instance of it;
    and the exercise selection is called once on every training day, skipped
    or not, before the gate is consulted. *)
Theorem skipped_workouts_have_no_children R today :
  (∀ quarter_id c week_num st week' st',
     day_body R today quarter_id c week_num st = Some (week', st') →
     day_keys c week_num ≠ [] →
     date_lt c today && should_skip_workout R c = true →
     instances st' = instances st
     ∧ sets st' = sets st
     ∧ ∃ w, workouts st' = (workouts st ++ [w])%list
            ∧ w_status w = skipped ∧ w_exerciseIds w = [])
  ∧ (∃ st,
      generate_workouts_with_data R today = Some st
      ∧ ∀ w, w ∈ workouts st → w_status w = skipped →
          w_exerciseIds w = []
          ∧ (∀ k i, instances st !! k = Some i → i_workoutId i ≠ w_id w)
          ∧ (∀ k s i, sets st !! k = Some s →
               instances st !! s_exerciseInstanceId s = Some i →
               i_workoutId i ≠ w_id w))
  ∧ (∀ quarter_id c week_num st,
       ∃ st',
         day_body R today quarter_id c week_num st
         = Some (next_week c week_num, st')
         ∧ day_body_calls R today quarter_id c week_num st
           = Some (next_week c week_num, st',
                   map (λ key : workout_key, (c, key.1.2)) (day_keys c week_num))).
Proof.
  split; [apply day_body_skipped|].
  split; [|apply day_body_calls_spec].
  destruct (generate_workouts_with_data_spec R today)
    as (st & Hst & Hkeys & Hsl & Hil & _ & _ & Hsk).
  exists st. split; [exact Hst|].
  intros w Hw Hskipped.
  assert (Hno : ∀ k i, instances st !! k = Some i → i_workoutId i ≠ w_id w).
  { intros k i Hk Heq.
    destruct (live_ids_elem _ _ (Hil k i Hk)) as (w' & Hw' & Hid & Hlive).
    assert (w' = w) as ->.
    { apply (NoDup_map_inj_on w_id (workouts st));
        [apply workout_ids_NoDup; exact Hkeys|assumption|assumption|congruence]. }
    contradiction. }
  split; [exact (Hsk w Hw Hskipped)|]. split; [exact Hno|].
  intros k s i _ Hi. exact (Hno _ i Hi).
Qed.

(** The iteration of 2024-10-08 in a process whose gate skips that day,
    through the theorem. *)
Lemma skipped_workouts_have_no_children_witness :
  ∃ st',
    day_body (salted_runtime 4) (fromordinal 739560) "q4_2024"
      (fromordinal 739167) 1 gen_state0 = Some (1, st')
    ∧ instances st' = ∅ ∧ sets st' = ∅.
Proof.
  assert (Hbody : ∃ st', day_body (salted_runtime 4) (fromordinal 739560) "q4_2024"
                           (fromordinal 739167) 1 gen_state0 = Some (1, st'))
    by (eexists; vm_compute; reflexivity).
  destruct Hbody as [st' Hbody].
  destruct (proj1 (skipped_workouts_have_no_children (salted_runtime 4)
                     (fromordinal 739560)) _ _ _ _ _ _ Hbody
              ltac:(vm_compute; discriminate)
              ltac:(vm_compute; reflexivity)) as (Hi & Hs & _).
  exists st'. split; [exact Hbody|]. split; assumption.
Defined.

(** C10, as stated, fails on its last clause: on Tuesday 2024-10-08, in a
    process whose gate skips that day, the iteration appends a skipped
    workout and yet has called the exercise selection for it. *)
Lemma selection_not_gated_counterexample :
  ∃ st' w calls,
    day_body_calls (salted_runtime 4) (fromordinal 739560) "q4_2024"
      (fromordinal 739167) 1 gen_state0 = Some (1, st', calls)
    ∧ date_lt (fromordinal 739167) (fromordinal 739560)
      && should_skip_workout (salted_runtime 4) (fromordinal 739167) = true
    ∧ workouts st' = [w]
    ∧ w_status w = skipped
    ∧ calls = [(fromordinal 739167, cardio)]
    ∧ ¬ (w_status w = skipped → calls = []).
Proof.
  eexists _, _, _. split; [vm_compute; reflexivity|].
  split; [vm_compute; reflexivity|]. split; [reflexivity|].
  split; [reflexivity|]. split; [reflexivity|].
  intros H. specialize (H eq_refl). discriminate.
Qed.

(** ** The calendar walk *)

(** C2, as amended: an iteration of the day loop advances the week counter by
    one exactly when its day is a Sunday; and the generator returns workouts
    such that, for every quarter and every day from the quarter's start to
    its end, the records scheduled on that day are: one record, of the type
    of its weekday (Monday, Wednesday, Friday strength; Tuesday, Thursday
    cardio) and named after the week counted from 1 by the Sundays walked, if
    the day is a training day on or after the first Monday of the quarter;
    none on a weekend day, and none before that first Monday. *)
Theorem workouts_follow_calendar R today :
  (∀ quarter_id c week_num st,
     ∃ st', day_body R today quarter_id c week_num st
            = Some (if weekday c =? 6 then week_num + 1 else week_num, st'))
  ∧ ∃ st,
      generate_workouts_with_data R today = Some st
      ∧ ∀ q s e d,
          q ∈ QUARTERS →
          strptime (q_start q) = Some s → strptime (q_end q) = Some e →
          toordinal s ≤ toordinal d ≤ toordinal e →
          map w_key (records_on d (workouts st)) = expected_records s d.
Proof.
  split.
  - intros quarter_id c week_num st.
    destruct (day_body_spec R today quarter_id c week_num st) as (st' & Hst' & _).
    exists st'. exact Hst'.
  - destruct (generate_workouts_with_data_spec R today) as (st & Hst & Hkeys & _).
    exists st. split; [exact Hst|].
    intros q s e d Hq Hs He Hd.
    rewrite keys_on_map, Hkeys.
    exact (schedule_check_day q s e d Hq Hs He Hd).
Qed.

(** Monday 2024-10-07 and Sunday 2024-10-06 of Q4 2024, through the
    theorem. *)
Lemma workouts_follow_calendar_witness :
  ∃ st,
    generate_workouts_with_data (salted_runtime 1) (fromordinal 739560) = Some st
    ∧ map w_key (records_on (fromordinal 739166) (workouts st))
      = [("2024-10-07T10:00:00Z", "bobby_20241007_strength", strength,
          "Week 1 Full Body A")]
    ∧ map w_key (records_on (fromordinal 739165) (workouts st)) = [].
Proof.
  destruct (proj2 (workouts_follow_calendar (salted_runtime 1) (fromordinal 739560)))
    as (st & Hst & Hdays).
  exists st. split; [exact Hst|]. split.
  - rewrite (Hdays {| q_name := "Q4 2024"; q_start := "2024-10-01";
                      q_end := "2024-12-31"; q_bodyweight := 144 |}
                   (fromordinal 739160) (fromordinal 739251) (fromordinal 739166)).
    + vm_compute. reflexivity.
    + unfold QUARTERS. apply elem_of_cons. left. reflexivity.
    + vm_compute. reflexivity.
    + vm_compute. reflexivity.
    + simpl. lia.
  - rewrite (Hdays {| q_name := "Q4 2024"; q_start := "2024-10-01";
                      q_end := "2024-12-31"; q_bodyweight := 144 |}
                   (fromordinal 739160) (fromordinal 739251) (fromordinal 739165)).
    + vm_compute. reflexivity.
    + unfold QUARTERS. apply elem_of_cons. left. reflexivity.
    + vm_compute. reflexivity.
    + vm_compute. reflexivity.
    + simpl. lia.
Defined.

(** C2, as stated, fails on the first days of a quarter: Tuesday 2024-10-01
    is a cardio day inside Q4 2024, and the walk, which starts on the first
    Monday (2024-10-07), gives it no record, in any run. *)
Lemma first_days_counterexample :
  ∃ q s d,
    q ∈ QUARTERS
    ∧ strptime (q_start q) = Some s
    ∧ strptime "2024-10-01" = Some d
    ∧ in_quarter q d
    ∧ training_type d = Some cardio
    ∧ find_first_monday 7 s = Some (fromordinal 739166)
    ∧ toordinal d = 739160
    ∧ ∀ R today, ∃ st,
        generate_workouts_with_data R today = Some st
        ∧ records_on d (workouts st) = [].
Proof.
  exists {| q_name := "Q4 2024"; q_start := "2024-10-01";
            q_end := "2024-12-31"; q_bodyweight := 144 |},
         (fromordinal 739160), (fromordinal 739160).
  split; [unfold QUARTERS; apply elem_of_cons; left; reflexivity|].
  split; [vm_compute; reflexivity|].
  split; [vm_compute; reflexivity|].
  split.
  { exists (fromordinal 739160), (fromordinal 739251).
    split; [vm_compute; reflexivity|]. split; [vm_compute; reflexivity|].
    simpl. lia. }
  split; [vm_compute; reflexivity|].
  split; [vm_compute; reflexivity|].
  split; [reflexivity|].
  intros R today.
  destruct (generate_workouts_with_data_spec R today) as (st & Hst & Hkeys & _).
  exists st. split; [exact Hst|].
  assert (Hk : map w_key (records_on (fromordinal 739160) (workouts st)) = []).
  { rewrite keys_on_map, Hkeys.
    rewrite (schedule_check_day
               {| q_name := "Q4 2024"; q_start := "2024-10-01";
                  q_end := "2024-12-31"; q_bodyweight := 144 |}
               (fromordinal 739160) (fromordinal 739251) (fromordinal 739160)
               ltac:(unfold QUARTERS; apply elem_of_cons; left; reflexivity)
               ltac:(vm_compute; reflexivity) ltac:(vm_compute; reflexivity)
               ltac:(simpl; lia)).
    vm_compute. reflexivity. }
  destruct (records_on (fromordinal 739160) (workouts st)); [reflexivity|discriminate].
Qed.

(** ** Merging into the data files *)

Section MergeLemmas.
Context {J G : Type}.

Lemma merge_dict_spec prefix (existing : gmap string J) (generated : gmap string G) :
  keys_prefixed prefix generated →
  prefix_merged prefix existing generated (merge_dict prefix existing generated).
Proof.
  intros Hpre. unfold prefix_merged, merge_dict, foreign.
  set (kept := filter (λ kv : string * J, startswith prefix kv.1 = false) existing).
  assert (Hkept : ∀ k, startswith prefix k = true → kept !! k = None).
  { intros k Hk. apply map_lookup_filter_None. right.
    intros x _. simpl. congruence. }
  assert (Hgen : ∀ k, startswith prefix k = false → generated !! k = None).
  { intros k Hk. destruct (generated !! k) as [g|] eqn:Hg; [|reflexivity].
    rewrite (Hpre k) in Hk by eauto. discriminate. }
  split; [|split].
  - rewrite map_size_disj_union, !map_size_fmap; [lia|].
    apply map_disjoint_alt. intros k. rewrite !lookup_fmap.
    destruct (startswith prefix k) eqn:Hk.
    + right. rewrite (Hkept k Hk). reflexivity.
    + left. rewrite (Hgen k Hk). reflexivity.
  - intros k Hk. rewrite lookup_union_l, lookup_fmap; [reflexivity|].
    rewrite lookup_fmap, (Hkept k Hk). reflexivity.
  - intros k Hk. rewrite lookup_union_r, lookup_fmap.
    + destruct (existing !! k) as [j|] eqn:Hj; simpl.
      * replace (kept !! k) with (Some j); [reflexivity|].
        symmetry. apply map_lookup_filter_Some. auto.
      * replace (kept !! k) with (@None J); [reflexivity|].
        symmetry. apply map_lookup_filter_None. auto.
    + rewrite lookup_fmap, (Hgen k Hk). reflexivity.
Qed.

Context (json_id : J → option string).

Lemma strip_list_spec prefix (existing : list J) :
  Forall (λ w, is_Some (json_id w)) existing →
  strip_list json_id prefix existing
  = Some (List.filter (is_foreign json_id prefix) existing).
Proof.
  induction existing as [|w rest IH]; intros Hids; [reflexivity|].
  inversion Hids as [|? ? [id Hid] Hrest]; subst.
  simpl. unfold is_foreign at 1. rewrite Hid, (IH Hrest). simpl.
  destruct (startswith prefix id); reflexivity.
Qed.

Lemma merge_list_spec prefix (existing : list J) (generated : list G) :
  Forall (λ w, is_Some (json_id w)) existing →
  ∃ out, merge_list json_id prefix existing generated = Some out
         ∧ prefix_merged_list json_id prefix existing generated out.
Proof.
  intros Hids. unfold merge_list. rewrite (strip_list_spec prefix existing Hids).
  simpl. eexists. split; [reflexivity|].
  split; [reflexivity|]. rewrite length_app, !length_map. reflexivity.
Qed.

End MergeLemmas.

(** The keys of the generated plans and programs carry their prefixes. *)

Lemma keys_prefixed_insert {V} p k (v : V) (m : gmap string V) :
  startswith p k = true → keys_prefixed p m → keys_prefixed p (<[k := v]> m).
Proof.
  intros Hk Hm k' Hk'. apply lookup_insert_is_Some' in Hk' as [<-|Hk']; auto.
Qed.

Lemma keys_prefixed_empty {V} p : keys_prefixed p (∅ : gmap string V).
Proof. intros k [v Hk]. rewrite lookup_empty in Hk. discriminate. Qed.

Lemma plans_loop_prefixed qs : ∀ i plans,
  keys_prefixed "plan_bobby" plans → keys_prefixed "plan_bobby" (plans_loop i qs plans).
Proof.
  induction qs as [|q qs IH]; intros i plans Hp; simpl; [exact Hp|].
  apply IH, keys_prefixed_insert; [|exact Hp].
  apply (startswith_self "plan_bobby" ("_" +:+ quarter_id_of q)).
Qed.

Lemma programs_phase_loop_prefixed today i qid qs qe phases : ∀ phase_idx programs,
  keys_prefixed "prog_bobby" programs →
  keys_prefixed "prog_bobby"
    (programs_phase_loop today i qid qs qe phase_idx phases programs).
Proof.
  induction phases as [|p phases IH]; intros phase_idx programs Hp; simpl; [exact Hp|].
  apply IH, keys_prefixed_insert; [|exact Hp].
  unfold program_of. destruct (ph_weeks p). simpl.
  apply (startswith_self "prog_bobby" ("_" +:+ qid +:+ "_" +:+ lower (ph_name p))).
Qed.

Lemma programs_loop_spec today qs : ∀ i programs,
  Forall (λ q, is_Some (strptime (q_start q)) ∧ is_Some (strptime (q_end q))) qs →
  keys_prefixed "prog_bobby" programs →
  ∃ programs', programs_loop today i qs programs = Some programs'
               ∧ keys_prefixed "prog_bobby" programs'.
Proof.
  induction qs as [|q qs IH]; intros i programs Hqs Hp; [simpl; eauto|].
  apply Forall_cons in Hqs as [[[s Hs] [e He]] Hrest].
  cbn -[programs_phase_loop]. rewrite Hs, He. cbn -[programs_phase_loop].
  apply IH; [exact Hrest|]. apply programs_phase_loop_prefixed, Hp.
Qed.


Lemma targets_loop_total items : ∀ targets,
  Forall (λ kv : string * list Z, kv.2 ≠ []) items →
  is_Some (targets_loop items targets).
Proof.
  induction items as [|[exercise_id values] items IH]; intros targets Hne;
    [simpl; eauto|].
  apply Forall_cons in Hne as [Hv Hrest]. simpl in Hv.
  cbn [targets_loop].
  destruct (last values) as [v|] eqn:Hlast.
  - rewrite bind_Some. apply IH, Hrest.
  - apply last_None in Hlast. contradiction.
Qed.

Lemma generate_targets_total : is_Some generate_targets.
Proof.
  apply targets_loop_total. unfold ONE_RM_PROGRESSION_items.
  repeat constructor; discriminate.
Qed.

(** What [main] returns: every generator returns, and each file is merged
    with its collection. *)
Lemma main_unfold {J} (json_id : J → option string) R today_programs today_workouts files :
  Forall (λ w, is_Some (json_id w)) (f_workouts files) →
  ∃ programs st targets ws,
    generate_programs today_programs = Some programs
    ∧ keys_prefixed "prog_bobby" programs
    ∧ generate_workouts_with_data R today_workouts = Some st
    ∧ gen_inv st
    ∧ generate_targets = Some targets
    ∧ prefix_merged_list json_id "bobby_" (f_workouts files) (workouts st) ws
    ∧ main json_id R today_programs today_workouts files
      = Some {| m_plans := merge_dict "plan_bobby" (f_plans files) generate_plans;
                m_programs := merge_dict "prog_bobby" (f_programs files) programs;
                m_workouts := ws;
                m_instances := merge_dict "bobby_" (f_instances files) (instances st);
                m_sets := merge_dict "bobby_" (f_sets files) (sets st);
                m_targets := upsert_dict (f_targets files) targets |}.
Proof.
  intros Hids. unfold main.
  destruct (programs_loop_spec today_programs QUARTERS 0 ∅
              (QUARTERS_well_formed) (keys_prefixed_empty _))
    as (programs & Hprog & Hpre).
  destruct (generate_workouts_with_data_spec R today_workouts)
    as (st & Hst & _ & Hinv).
  destruct generate_targets_total as [targets Htargets].
  destruct (merge_list_spec json_id "bobby_" (f_workouts files) (workouts st) Hids)
    as (ws & Hws & Hmerged).
  exists programs, st, targets, ws.
  split; [exact Hprog|]. split; [exact Hpre|]. split; [exact Hst|].
  split; [exact Hinv|]. split; [exact Htargets|]. split; [exact Hmerged|].
  unfold generate_programs.
  rewrite Hprog, bind_Some. rewrite Hst, bind_Some.
  rewrite Htargets, bind_Some. rewrite Hws, bind_Some. reflexivity.
Qed.

(** C7, as amended: when every existing workout record has an id, [main]
    returns, and each of the five collections merged by prefix (plans,
    programs, workouts, instances, sets) holds exactly the existing records
    whose id does not carry the collection's reserved prefix, unchanged, and
    the newly generated records: its size is the number of the former plus
    the number of the latter, and no existing record with the prefix is left.
    The targets are merged by id instead: a generated target replaces the
    existing record of the same id and every other existing record stays. *)
Theorem main_merges_by_prefix {J} (json_id : J → option string)
    R today_programs today_workouts files :
  Forall (λ w, is_Some (json_id w)) (f_workouts files) →
  ∃ programs st targets out,
    generate_programs today_programs = Some programs
    ∧ generate_workouts_with_data R today_workouts = Some st
    ∧ generate_targets = Some targets
    ∧ main json_id R today_programs today_workouts files = Some out
    ∧ prefix_merged "plan_bobby" (f_plans files) generate_plans (m_plans out)
    ∧ prefix_merged "prog_bobby" (f_programs files) programs (m_programs out)
    ∧ prefix_merged_list json_id "bobby_" (f_workouts files) (workouts st)
        (m_workouts out)
    ∧ prefix_merged "bobby_" (f_instances files) (instances st) (m_instances out)
    ∧ prefix_merged "bobby_" (f_sets files) (sets st) (m_sets out)
    ∧ ∀ k, m_targets out !! k
           = match targets !! k with
             | Some t => Some (inr t)
             | None => inl <$> f_targets files !! k
             end.
Proof.
  intros Hids.
  destruct (main_unfold json_id R today_programs today_workouts files Hids)
    as (programs & st & targets & ws & Hprog & Hpre & Hst & Hinv & Htargets
        & Hws & Hmain).
  destruct Hinv as (_ & _ & Hki & Hks & _).
  eexists programs, st, targets, _.
  split; [exact Hprog|]. split; [exact Hst|]. split; [exact Htargets|].
  split; [exact Hmain|].
  cbn [m_plans m_programs m_workouts m_instances m_sets m_targets].
  split; [apply merge_dict_spec, plans_loop_prefixed, keys_prefixed_empty|].
  split; [apply merge_dict_spec, Hpre|].
  split; [exact Hws|].
  split; [apply merge_dict_spec, Hki|].
  split; [apply merge_dict_spec, Hks|].
  intros k. unfold upsert_dict. rewrite lookup_union, !lookup_fmap.
  destruct (targets !! k), (f_targets files !! k); reflexivity.
Qed.

(** The merge of [example_files], through the theorem: of the two existing
    plans the foreign one stays and the prefixed one is gone, and of the two
    existing workouts the foreign one alone is kept, first in the list. *)
Lemma main_merges_by_prefix_witness :
  ∃ st out,
    generate_workouts_with_data (salted_runtime 1) (fromordinal 739560) = Some st
    ∧ main Some (salted_runtime 1) (fromordinal 739560) (fromordinal 739560)
        example_files = Some out
    ∧ size (m_plans out) = (1 + size generate_plans)%nat
    ∧ m_plans out !! "plan_alice" = Some (inl "plan_alice")
    ∧ m_plans out !! "plan_bobby_old" = None
    ∧ m_workouts out = inl "alice_20240101_strength" :: map inr (workouts st).
Proof.
  destruct (main_merges_by_prefix Some (salted_runtime 1) (fromordinal 739560)
              (fromordinal 739560) example_files)
    as (programs & st & targets & out & _ & Hst & _ & Hmain
        & (Hsize & Hres & Hfor) & _ & (Hws & _) & _).
  { unfold example_files. simpl. repeat constructor; eauto. }
  exists st, out. split; [exact Hst|]. split; [exact Hmain|].
  split; [exact Hsize|]. split; [|split].
  - rewrite (Hfor "plan_alice" eq_refl). reflexivity.
  - rewrite (Hres "plan_bobby_old" eq_refl). vm_compute. reflexivity.
  - exact Hws.
Defined.

Lemma targets_loop_spec items : ∀ targets targets',
  targets_loop items targets = Some targets' →
  (keys_prefixed "bobby-" targets → keys_prefixed "bobby-" targets')
  ∧ ∀ k, (∀ e, k ≠ "bobby-" +:+ e) → targets' !! k = targets !! k.
Proof.
  induction items as [|[exercise_id values] items IH]; intros targets targets' H.
  - injection H as <-. auto.
  - cbn [targets_loop] in H.
    destruct (last values) as [v|]; [|discriminate].
    rewrite bind_Some in H. apply IH in H as [Hpre Hother]. split.
    + intros Hp. apply Hpre, keys_prefixed_insert; [|exact Hp].
      apply (startswith_self "bobby-").
    + intros k Hk. rewrite (Hother k Hk). apply lookup_insert_ne. apply not_eq_sym, Hk.
Qed.

(** C7, as stated for every output collection, fails on the targets: the
    ids of the generated targets carry the prefix bobby-, and an existing
    target with that prefix that is not regenerated survives the merge, so
    that the file holds one record more than the foreign records (none here)
    and the generated ones together. *)
Lemma targets_not_stripped_counterexample :
  ∃ targets out,
    generate_targets = Some targets
    ∧ main Some (salted_runtime 1) (fromordinal 739560) (fromordinal 739560)
        example_files = Some out
    ∧ keys_prefixed "bobby-" targets
    ∧ startswith "bobby-" "bobby-legacy_lift" = true
    ∧ size (foreign "bobby-" (f_targets example_files)) = 0%nat
    ∧ m_targets out !! "bobby-legacy_lift" = Some (inl "bobby-legacy_lift")
    ∧ size (m_targets out) = (size targets + 1)%nat
    ∧ ¬ prefix_merged "bobby-" (f_targets example_files) targets (m_targets out).
Proof.
  destruct (main_unfold Some (salted_runtime 1) (fromordinal 739560)
              (fromordinal 739560) example_files)
    as (programs & st & targets & ws & _ & _ & _ & _ & Htargets & _ & Hmain).
  { unfold example_files. simpl. repeat constructor; eauto. }
  destruct (targets_loop_spec _ _ _ Htargets) as [Hpre Hother].
  assert (Hnone : targets !! "bobby-legacy_lift" = None).
  { assert (Hl : (t ← generate_targets; Some (t !! "bobby-legacy_lift"))
                 = Some None) by (vm_compute; reflexivity).
    rewrite Htargets, bind_Some in Hl. injection Hl as Hl. exact Hl. }
  assert (Hlook : upsert_dict (f_targets example_files) targets !! "bobby-legacy_lift"
                  = Some (inl "bobby-legacy_lift")).
  { unfold upsert_dict. rewrite lookup_union, !lookup_fmap, Hnone. reflexivity. }
  eexists targets, _. split; [exact Htargets|]. split; [exact Hmain|].
  cbn [m_targets].
  split; [apply Hpre, keys_prefixed_empty|]. split; [reflexivity|].
  split; [vm_compute; reflexivity|]. split; [exact Hlook|]. split.
  - unfold upsert_dict. rewrite map_size_disj_union.
    + rewrite !map_size_fmap. simpl. rewrite map_size_singleton. reflexivity.
    + apply map_disjoint_alt. intros k. rewrite !lookup_fmap.
      destruct (decide (k = "bobby-legacy_lift")) as [->|Hne].
      * left. rewrite Hnone. reflexivity.
      * right. simpl. rewrite lookup_singleton_ne by congruence. reflexivity.
  - intros (_ & Hres & _).
    rewrite (Hres "bobby-legacy_lift" eq_refl), Hnone in Hlook. discriminate.
Qed.

(** ** Further properties of the generator *)

(** X1: the outcome drawn lies in its band of the cumulative weights: with
    x = random() * 100, hit has x < 60, exceeded 60 <= x < 75, struggled
    75 <= x < 90, weight_drop 90 <= x < 95 and skipped 95 <= x (each bound as
    the comparison the search made). *)
Theorem draw_outcome_in_band R g :
  ∃ o g',
    draw_outcome R g = Some (o, g')
    ∧ let x := ((random_random R g).1 * 100)%float in
      match o with
      | hit => PrimFloat.ltb x 60 = true
      | exceeded => PrimFloat.ltb x 60 = false ∧ PrimFloat.ltb x 75 = true
      | struggled => PrimFloat.ltb x 75 = false ∧ PrimFloat.ltb x 90 = true
      | weight_drop => PrimFloat.ltb x 90 = false ∧ PrimFloat.ltb x 95 = true
      | skipped_set => PrimFloat.ltb x 95 = false
      end.
Proof.
  rewrite draw_outcome_bands. cbv zeta.
  set (x := ((random_random R g).1 * 100)%float).
  destruct (PrimFloat.ltb x 90) eqn:H90.
  - destruct (PrimFloat.ltb x 75) eqn:H75.
    + destruct (PrimFloat.ltb x 60) eqn:H60; eexists _, _; (split; [reflexivity|]);
        simpl; auto.
    + eexists _, _. split; [reflexivity|]. simpl. auto.
  - destruct (PrimFloat.ltb x 95) eqn:H95; eexists _, _; (split; [reflexivity|]);
      simpl; auto.
Qed.

Lemma full_schedule_length : length full_schedule = 309%nat.
Proof. vm_compute. reflexivity. Qed.

(** X2: whatever the process and the day of the run, the generator returns
    without raising, and its workout list is the schedule of the five
    quarters, in calendar order: 309 workouts. *)
Theorem generator_returns_schedule R today :
  ∃ st,
    generate_workouts_with_data R today = Some st
    ∧ map w_key (workouts st) = full_schedule
    ∧ length (workouts st) = 309%nat.
Proof.
  destruct (generate_workouts_with_data_spec R today) as (st & Hst & Hkeys & _).
  exists st. split; [exact Hst|]. split; [exact Hkeys|].
  rewrite <- full_schedule_length, <- Hkeys, length_map. reflexivity.
Qed.

(** X3: on a training day that is not in the past (today or later) the skip
    gate is not consulted: the record appended is scheduled, has no completion
    date, and lists the exercises selected for the day. *)
Theorem future_workouts_are_scheduled R today quarter_id c week_num st week' st' :
  day_body R today quarter_id c week_num st = Some (week', st') →
  day_keys c week_num ≠ [] →
  date_lt c today = false →
  ∃ w t,
    workouts st' = (workouts st ++ [w])%list
    ∧ w_status w = scheduled
    ∧ w_completedDate w = None
    ∧ training_type c = Some t
    ∧ select_exercises_for_workout c t = Some (w_exerciseIds w).
Proof.
  unfold day_body, day_keys, training_type.
  destruct (get_phase_for_week_total week_num) as [[phase_idx phase_] ->]. simpl.
  intros Hbody Hkeys Hfuture. rewrite Hfuture in Hbody.
  unfold plan_day in *.
  destruct (bool_decide (weekday c ∈ [0; 2; 4])).
  - cbn [dp_type dp_workout_id dp_protocol_id dp_name dp_split_day] in Hbody.
    destruct (select_exercises_total c strength) as [exercise_ids Hsel].
    rewrite Hsel in Hbody. rewrite bind_Some in Hbody. cbn [andb] in Hbody.
    match type of Hbody with
    | context [exercise_loop ?R ?d ?p ?wk ?ph ?wid ?t ?pid ?i ?ids ?pv ?s] =>
        destruct (exercise_loop_spec R d p wk ph wid t pid []
                    (startswith_self "bobby_" _) ids i pv s)
          as (pv1 & st1 & Hloop & Hws & _)
    end.
    rewrite Hloop in Hbody. rewrite bind_Some in Hbody.
    injection Hbody as _ <-. cbn [workouts].
    eexists _, strength. rewrite Hws. cbn [workouts].
    split; [reflexivity|]. repeat split. exact Hsel.
  - destruct (bool_decide (weekday c ∈ [1; 3])); [|congruence].
    cbn [dp_type dp_workout_id dp_protocol_id dp_name dp_split_day] in Hbody.
    destruct (select_exercises_total c cardio) as [exercise_ids Hsel].
    rewrite Hsel in Hbody. rewrite bind_Some in Hbody. cbn [andb] in Hbody.
    match type of Hbody with
    | context [exercise_loop ?R ?d ?p ?wk ?ph ?wid ?t ?pid ?i ?ids ?pv ?s] =>
        destruct (exercise_loop_spec R d p wk ph wid t pid []
                    (startswith_self "bobby_" _) ids i pv s)
          as (pv1 & st1 & Hloop & Hws & _)
    end.
    rewrite Hloop in Hbody. rewrite bind_Some in Hbody.
    injection Hbody as _ <-. cbn [workouts].
    eexists _, cardio. rewrite Hws. cbn [workouts].
    split; [reflexivity|]. repeat split. exact Hsel.
Qed.

(** The iteration of Monday 2025-12-01 in a run of 2025-11-05, through the
    theorem. *)
Lemma future_workouts_are_scheduled_witness :
  ∃ st' w,
    day_body (salted_runtime 1) (fromordinal 739560) "q4_2025"
      (fromordinal 739586) 9 gen_state0 = Some (9, st')
    ∧ workouts st' = [w]
    ∧ w_status w = scheduled.
Proof.
  assert (Hbody : ∃ st', day_body (salted_runtime 1) (fromordinal 739560) "q4_2025"
                           (fromordinal 739586) 9 gen_state0 = Some (9, st'))
    by (eexists; vm_compute; reflexivity).
  destruct Hbody as [st' Hbody].
  destruct (future_workouts_are_scheduled _ _ _ _ _ _ _ _ Hbody
              ltac:(vm_compute; discriminate)
              ltac:(vm_compute; reflexivity)) as (w & t & Hws & Hst & _).
  exists st', w. split; [exact Hbody|]. split; assumption.
Defined.

(** ** Exercise selection *)






(** ** Merging a second time *)

Section Rerun.
Context {J G G' : Type}.


Context (json_id : J → option string) (gen_id : G → string).





End Rerun.


(** ** Targets *)




(** ** Every listed exercise has its records *)













Section ExerciseLoopStored.
Context (R : py_runtime) (current_date : date) (is_past : bool) (week_num : Z)
        (phase_ : phase) (workout_id : string) (wtype : workout_type)
        (protocol_id : string).
Hypothesis phase_of_week : ∃ idx, get_phase_for_week week_num = Some (idx, phase_).


End ExerciseLoopStored.


Section Stored.
Context (R : py_runtime) (today : date).






End Stored.



(** ** Plans and programs *)


Section ProgramLoops.
Context (today : date).



End ProgramLoops.










(** ** Workouts name the program of their week *)


Section Linked.
Context (R : py_runtime) (today : date).




End Linked.


(** ** Well-formed records *)


Section SetRecords.
Context (R : py_runtime) (current_date : date) (is_past : bool)
        (wtype : workout_type) (ex_idx : Z) (instance_id : string)
        (instance_status : status) (reps : list Z) (target_weight : float).



End SetRecords.

Section Records.
Context (R : py_runtime) (today : date).






End Records.


(** ** The workout counters *)



Section Counters.
Context (R : py_runtime) (today : date).






End Counters.


(** ** The thirteenth week *)



